(** * powerdns_record: the record reconciler of the PowerDNS Ansible module

    A shallow embedding of [powerdns_record.py]: the Python string
    primitives the module relies on, the SOA-aware content comparator
    ([serial], [ignore_serial], [matches_existing_content]), the API client
    ([PowerDNSClient]) running against a model of the remote server, and
    the reconciler [ensure].

    Python [str] values are modelled as [string], the bytes of their UTF-8
    encoding (searching, splitting and stripping at ASCII characters is
    the same on the bytes as on the characters);
    Python exceptions and [module.fail_json] are explicit results. *)

From Stdlib Require Import ZArith Ascii String.
From stdpp Require Import base decidable list strings.

Local Open Scope Z_scope.

(* ===================================================================== *)
(** ** Python string primitives *)
(* ===================================================================== *)

Module Py.

(** [c in chars], for a character [c]. *)
Fixpoint has_char (chars : string) (c : ascii) : bool :=
  match chars with
  | EmptyString => false
  | String a chars' => Ascii.eqb a c || has_char chars' c
  end.

(** [s.startswith(prefix)] *)
Definition startswith (s prefix : string) : bool := String.prefix prefix s.

(** [s.endswith(suffix)]: [suffix] is [s] itself or ends a tail of [s]. *)
Fixpoint endswith (s suffix : string) : bool :=
  String.eqb s suffix ||
  match s with
  | EmptyString => false
  | String _ s' => endswith s' suffix
  end.

(** [sub in s] on strings: [sub] starts at some position of [s]. *)
Fixpoint contains (s sub : string) : bool :=
  String.prefix sub s ||
  match s with
  | EmptyString => false
  | String _ s' => contains s' sub
  end.

(** [s.lstrip(chars)] *)
Fixpoint lstrip (s chars : string) : string :=
  match s with
  | EmptyString => EmptyString
  | String a s' => if has_char chars a then lstrip s' chars else s
  end.

(** [s.rstrip(chars)] *)
Fixpoint rstrip (s chars : string) : string :=
  match s with
  | EmptyString => EmptyString
  | String a s' =>
      match rstrip s' chars with
      | EmptyString => if has_char chars a then EmptyString else String a EmptyString
      | r => String a r
      end
  end.

(** [s.strip(chars)] *)
Definition strip (s chars : string) : string := rstrip (lstrip s chars) chars.

(** [s.split(sep)] for a one-character separator [sep]; never empty:
    [''.split(' ') == ['']]. *)
Fixpoint split (s : string) (sep : ascii) : list string :=
  match s with
  | EmptyString => [EmptyString]
  | String a s' =>
      if Ascii.eqb a sep then EmptyString :: split s' sep
      else match split s' sep with
           | [] => [String a EmptyString]
           | w :: ws => String a w :: ws
           end
  end.

(** [sep.join(parts)] *)
Fixpoint join (sep : string) (parts : list string) : string :=
  match parts with
  | [] => EmptyString
  | [p] => p
  | p :: ps => p +:+ sep +:+ join sep ps
  end.

(** [c.lower()] on the ASCII letters. *)
Definition lower_char (c : ascii) : ascii :=
  let n := nat_of_ascii c in
  if ((65 <=? n) && (n <=? 90))%nat then ascii_of_nat (n + 32) else c.

(** [s.lower()] for a text of ASCII characters. *)
Fixpoint lower_ascii (s : string) : string :=
  match s with
  | EmptyString => EmptyString
  | String a s' => String (lower_char a) (lower_ascii s')
  end.

(** A text of ASCII characters: every byte is below 128. *)
Fixpoint is_ascii (s : string) : bool :=
  match s with
  | EmptyString => true
  | String a s' => (nat_of_ascii a <? 128)%nat && is_ascii s'
  end.

(** [s.lower()].  Python lowers a text by the Unicode tables, and may
    change its length; the model fixes only what it does to a text of
    ASCII characters. *)
Class Lower := {
  lower : string → string;
  lower_of_ascii : ∀ s, is_ascii s = true → lower s = lower_ascii s
}.

(** [set(l)], as the list of its elements in iteration order.  The order
    in which Python iterates over a set of strings is not specified; the
    model only fixes that every distinct element of [l] comes up once. *)
Class SetOrder := {
  set : list string → list string;
  set_perm : ∀ l, set l ≡ₚ remove_dups l
}.

(** [len(set(l))] does not depend on the iteration order. *)
Definition len_set (l : list string) : nat := length (remove_dups l).

(** [x in l] on lists. *)
Definition in_list (x : string) (l : list string) : bool := bool_decide (x ∈ l).

End Py.

(** One admissible iteration order: the distinct elements in the order of
    their last occurrence, as [remove_dups] leaves them. *)
Definition last_seen_order : Py.SetOrder :=
  {| Py.set := remove_dups; Py.set_perm := λ l, reflexivity (remove_dups l) |}.

(** One admissible lowering: the ASCII letters are lowered, every other
    byte is kept. *)
Definition ascii_lower : Py.Lower :=
  {| Py.lower := Py.lower_ascii; Py.lower_of_ascii := λ s _, eq_refl |}.

(* ===================================================================== *)
(** ** Content comparator *)
(* ===================================================================== *)

(** [IndexError] of [content.split(' ')[2]] is [None]. *)
Definition serial (content : string) : option string :=
  Py.split content " " !! 2%nat.

Definition ignore_serial (content : string) : string :=
  let parts := Py.split content " " in
  Py.join " " (take 2 parts ++ drop 3 parts).

(** [parts[:2] + parts[3:]], the list that [ignore_serial] joins. *)
Definition parts_without_serial (content : string) : list string :=
  let parts := Py.split content " " in
  take 2 parts ++ drop 3 parts.

(** [None] is the [IndexError] raised by [serial]; [and] evaluates
    [serial(content)] only when [rtype == 'SOA']. *)
Definition matches_existing_content
    (rtype content : string) (existing_content : list string) : option bool :=
  if String.eqb rtype "SOA" then
    s ← serial content;
    if String.eqb s "0" then
      Some (Py.in_list (ignore_serial content) (ignore_serial <$> existing_content))
    else Some (Py.in_list content existing_content)
  else Some (Py.in_list content existing_content).

(* ===================================================================== *)
(** ** The remote API and the results of Python code *)
(* ===================================================================== *)

Record PowerDNSError := {
  err_url : string;
  status_code : Z;
  message : string
}.

(** The exceptions that can leave [ensure]. *)
Inductive Exception :=
| IndexError                      (* [content.split(' ')[2]] out of range *)
| TypeError                       (* iterating or searching [None];
                                     [resp['rrsets']] on a document that is
                                     no dict *)
| KeyError                        (* [resp['rrsets']] on a dict without it *)
| Upstream (e : PowerDNSError).   (* raised by [_handle_request] *)

(** One entry of an rrset's [records] list. *)
Record Entry := { rec_content : string; rec_disabled : bool }.

Record RRset := {
  rr_name : string;
  rr_type : string;
  rr_ttl : option Z;
  rr_records : list Entry;
  rr_comments : list string
}.

(** What [get_record] returns: an rrset of the zone, or the literal
    [dict(records=[], comments=[])]. *)
Inductive RecordDict :=
| Found (r : RRset)
| Default.

(** [record["records"]] *)
Definition records_of (record : RecordDict) : list Entry :=
  match record with Found r => rr_records r | Default => [] end.

(** [record.get('ttl', None)] *)
Definition ttl_of (record : RecordDict) : option Z :=
  match record with Found r => rr_ttl r | Default => None end.

Inductive Changetype := REPLACE | DELETE.

(** An entry of the request body; [rq_set_ptr] says whether the key
    ['set-ptr'] is present. *)
Record RequestEntry := {
  rq_content : string;
  rq_disabled : option bool;
  rq_set_ptr : bool
}.

Record RRsetChange := {
  ch_name : string;
  ch_type : string;
  changetype : Changetype;
  ch_records : list RequestEntry;
  ch_ttl : option Z
}.

(** What can go wrong with the response of a read: [_handle_request]
    raises; or the response is a success whose document is a dict without
    ['rrsets'] (an empty body or one that is no JSON gives [dict()]); or it
    is a success whose document is no dict ([null], a list, a string, a
    number). *)
Inductive ReadFault :=
| ReadError (e : PowerDNSError)
| NoRrsets
| NoDict.

(** What [_handle_request] returns for a read: the zone as the remote
    API documents it, a dict whose ['rrsets'] lists the rrsets, each with
    its ['name'] and ['type']; a dict without ['rrsets']; or a document
    that is no dict. *)
Inductive ZoneDocument :=
| Zone (rrsets : list RRset)
| DictWithoutRrsets
| NotADict.

(** The HTTP requests of the session. *)
Inductive Call :=
| GET (url : string)
| PATCH (url : string) (data : list RRsetChange).

Definition is_read (c : Call) : bool :=
  match c with GET _ => true | PATCH _ _ => false end.

(** Modelled from the spec: the remote management API of section 6, which
    is not part of this repository.  The remote holds the rrsets of the
    zone addressed; a replacement stores the submitted entries and TTL in
    place of the rrset of that name and type (and leaves no rrset when no
    entry is submitted), a deletion removes it, a read returns the rrsets.
    Every request may fail instead: [patch_faults] lists, write by write,
    the error (if any) that [_handle_request] raises for the response, and
    [get_faults], read by read, what goes wrong with the response of a
    read (if anything); a failed request changes nothing.  [log] records
    the requests sent. *)
Record Remote := {
  rrsets : list RRset;
  get_faults : list (option ReadFault);
  patch_faults : list (option PowerDNSError);
  log : list Call
}.

Definition stored_entry (e : RequestEntry) : Entry :=
  {| rec_content := rq_content e; rec_disabled := default false (rq_disabled e) |}.

Definition same_key (name rtype : string) (r : RRset) : bool :=
  String.eqb (rr_name r) name && String.eqb (rr_type r) rtype.

Definition apply_change (c : RRsetChange) (rs : list RRset) : list RRset :=
  let others := List.filter (λ r, negb (same_key (ch_name c) (ch_type c) r)) rs in
  match changetype c, ch_records c with
  | REPLACE, _ :: _ =>
      {| rr_name := ch_name c; rr_type := ch_type c; rr_ttl := ch_ttl c;
         rr_records := stored_entry <$> ch_records c; rr_comments := [] |} :: others
  | _, _ => others
  end.

(** Expressions: a value or an exception, and the remote afterwards. *)
Inductive Result (A : Type) :=
| Ok (a : A)
| Raise (e : Exception).
Arguments Ok {A} a.
Arguments Raise {A} e.

Definition M (A : Type) : Type := Remote → Result A * Remote.

Definition ret {A} (a : A) : M A := λ w, (Ok a, w).

Definition bind {A B} (m : M A) (k : A → M B) : M B :=
  λ w, match m w with
       | (Ok a, w') => k a w'
       | (Raise e, w') => (Raise e, w')
       end.

Notation "x ←ᴹ m ; k" := (bind m (λ x, k))
  (at level 100, m at next level, right associativity, only parsing).

Definition lift {A} (r : Result A) : M A := λ w, (r, w).

(** [self._handle_request(self.session.get(url=url))] *)
Definition session_get (url : string) : M ZoneDocument :=
  λ w,
    let w' := {| rrsets := rrsets w; get_faults := tail (get_faults w);
                 patch_faults := patch_faults w; log := log w ++ [GET url] |} in
    match get_faults w with
    | Some (ReadError e) :: _ => (Raise (Upstream e), w')
    | Some NoRrsets :: _ => (Ok DictWithoutRrsets, w')
    | Some NoDict :: _ => (Ok NotADict, w')
    | _ => (Ok (Zone (rrsets w)), w')
    end.

(** [resp['rrsets']] *)
Definition subscript_rrsets (resp : ZoneDocument) : Result (list RRset) :=
  match resp with
  | Zone rrsets => Ok rrsets
  | DictWithoutRrsets => Raise KeyError
  | NotADict => Raise TypeError
  end.

(** [self._handle_request(self.session.patch(url=url, json=data))] *)
Definition session_patch (url : string) (data : list RRsetChange) : M unit :=
  λ w,
    let sent := log w ++ [PATCH url data] in
    match patch_faults w with
    | Some e :: _ =>
        (Raise (Upstream e),
         {| rrsets := rrsets w; get_faults := get_faults w;
            patch_faults := tail (patch_faults w); log := sent |})
    | _ =>
        (Ok (),
         {| rrsets := foldl (λ rs c, apply_change c rs) (rrsets w) data;
            get_faults := get_faults w;
            patch_faults := tail (patch_faults w); log := sent |})
    end.

(* ===================================================================== *)
(** ** PowerDNSClient *)
(* ===================================================================== *)

(** The client; [url] is ['{prot}://{host}:{port}/api/v1'].  The session
    (headers, credentials, certificate checking) is the remote's business. *)
Record PowerDNSClient := { url : string }.

Definition _get_zones_url (self : PowerDNSClient) (server : string) : string :=
  url self +:+ "/servers/" +:+ server +:+ "/zones".

Definition _get_zone_url (self : PowerDNSClient) (server name : string) : string :=
  _get_zones_url self server +:+ "/" +:+ name.

Definition _make_canonical (name : string) : string :=
  if negb (Py.endswith name ".") then name +:+ "." else name.

(** [next((r for r in rrsets if r['name'] == canonical_name and
    r['type'] == rtype), dict(records=[], comments=[]))] *)
Definition first_rrset (rrsets : list RRset) (canonical_name rtype : string)
  : RecordDict :=
  match List.find (same_key canonical_name rtype) rrsets with
  | Some r => Found r
  | None => Default
  end.

Definition get_record (self : PowerDNSClient) (server zone name rtype : string)
  : M RecordDict :=
  let url := _get_zone_url self server zone in
  resp ←ᴹ session_get url;
  let canonical_name := _make_canonical name in
  rrsets ←ᴹ lift (subscript_rrsets resp);
  ret (first_rrset rrsets canonical_name rtype).

(** [content] is [None], or the elements of a list or set in iteration
    order; [if content:] skips [None] and the empty collection alike. *)
Definition _get_request_data (changetype : Changetype) (name rtype : string)
    (set_ptr : bool) (content : option (list string))
    (disabled : option bool) (ttl : option Z) : list RRsetChange :=
  let record_content :=
    (λ record,
       {| rq_content := record; rq_disabled := disabled;
          rq_set_ptr := (String.eqb rtype "A" || String.eqb rtype "AAAA") && set_ptr |})
    <$> default [] content in
  [ {| ch_name := name; ch_type := rtype; changetype := changetype;
       ch_records := record_content; ch_ttl := ttl |} ].

Definition create_record (self : PowerDNSClient) (server zone name rtype : string)
    (content : option (list string)) (disabled : bool) (ttl : Z) (set_ptr : bool)
  : M unit :=
  let url := _get_zone_url self server zone in
  let canonical_name := _make_canonical name in
  let data := _get_request_data REPLACE canonical_name rtype set_ptr content
                (Some disabled) (Some ttl) in
  session_patch url data.

Definition delete_record (self : PowerDNSClient) (server zone name rtype : string)
  : M unit :=
  let canonical_name := _make_canonical name in
  let url := _get_zone_url self server zone in
  let data := _get_request_data DELETE canonical_name rtype false None None None in
  session_patch url data.

(* ===================================================================== *)
(** ** Statements *)
(* ===================================================================== *)

(** ['Could not {action} record {name}: HTTP {code}: {err}'] *)
Record FailMsg := {
  fm_action : string;
  fm_name : string;
  fm_code : Z;
  fm_err : string
}.

(** How a block of statements of a function returning [R] ends: it falls
    through to the next statement, returns, lets an exception escape, or
    leaves the process through [module.fail_json]. *)
Inductive Outcome (R : Type) :=
| Continue
| Return (r : R)
| Raised (e : Exception)
| Failed (msg : FailMsg).
Arguments Continue {R}.
Arguments Return {R} r.
Arguments Raised {R} e.
Arguments Failed {R} msg.

Definition Stmt (R : Type) : Type := Remote → Outcome R * Remote.

Definition skip {R} : Stmt R := λ w, (Continue, w).

Definition return_ {R} (r : R) : Stmt R := λ w, (Return r, w).

Definition raise {R} (e : Exception) : Stmt R := λ w, (Raised e, w).

(** [s1; s2]: [s2] runs only when [s1] falls through. *)
Definition seq {R} (s1 s2 : Stmt R) : Stmt R :=
  λ w, match s1 w with
       | (Continue, w') => s2 w'
       | out => out
       end.

(** Evaluate an expression, then go on with its value. *)
Definition eval {A R} (m : M A) (k : A → Stmt R) : Stmt R :=
  λ w, match m w with
       | (Ok a, w') => k a w'
       | (Raise e, w') => (Raised e, w')
       end.

(** [try: body  except PowerDNSError as e: module.fail_json(msg=...)] *)
Definition try_except {R} (body : Stmt R) (handler : PowerDNSError → FailMsg) : Stmt R :=
  λ w, match body w with
       | (Raised (Upstream e), w') => (Failed (handler e), w')
       | out => out
       end.

(** A block that never falls through to the statement after it. *)
Definition finishes {R} (s : Stmt R) : Prop := ∀ w, fst (s w) ≠ Continue.

Notation "s1 ;; s2" := (seq s1 s2) (at level 100, s2 at level 200, right associativity).
Notation "x ←ˢ m ; k" := (eval m (λ x, k))
  (at level 100, m at next level, right associativity, only parsing).

(* ===================================================================== *)
(** ** The reconciler *)
(* ===================================================================== *)

(** [module.params]; [p_content] is [None] when no content is given. *)
Record Params := {
  p_content : option (list string);
  p_disabled : bool;
  p_exclusive : bool;
  p_name : string;
  p_type : string;
  p_set_ptr : bool;
  p_ttl : Z;
  p_zone : string;
  p_server : string;
  p_state : string
}.

Record AnsibleModule := { params : Params; check_mode : bool }.

(** The one-character string holding a double quote. *)
Definition dquote : string := Eval cbv in String (ascii_of_nat 34) EmptyString.

(** The body of the loop that double-quotes TXT items. *)
Definition quote_txt (item : string) : string :=
  if negb (Py.startswith item dquote && Py.endswith item dquote)
  then dquote +:+ Py.strip item dquote +:+ dquote
  else item.

(** "Sanitize user-provided input for certain record types". *)
Definition sanitize {text : Py.Lower} (rtype : string) (content : option (list string))
  : option (list string) :=
  match content with
  | Some ((_ :: _) as c) =>
      let c := if String.eqb rtype "AAAA" then Py.lower <$> c else c in
      let c := if String.eqb rtype "TXT" then quote_txt <$> c else c in
      Some c
  | _ => content
  end.

(** [for item in content: if not matches_existing_content(...) or
    record.get('ttl', None) != ttl: record_content.append(item)] *)
Fixpoint changed_items (rtype : string) (existing_content : list string)
    (record_ttl : option Z) (ttl : Z) (content record_content : list string)
  : Result (list string) :=
  match content with
  | [] => Ok record_content
  | item :: rest =>
      match matches_existing_content rtype item existing_content with
      | None => Raise IndexError
      | Some m =>
          changed_items rtype existing_content record_ttl ttl rest
            (if negb m || negb (bool_decide (record_ttl = Some ttl))
             then record_content ++ [item] else record_content)
      end
  end.

Definition fail_msg (action name : string) (e : PowerDNSError) : FailMsg :=
  {| fm_action := action; fm_name := name;
     fm_code := status_code e; fm_err := message e |}.

Definition nonempty {A} (l : list A) : bool :=
  match l with [] => false | _ => true end.

Section Ensure.

Context {text : Py.Lower} {order : Py.SetOrder}.

Definition ensure (module : AnsibleModule) (pdns_client : PowerDNSClient)
  : Stmt (bool * option RecordDict) :=
  let content := p_content (params module) in
  let disabled := p_disabled (params module) in
  let exclusive := p_exclusive (params module) in
  let name := p_name (params module) in
  let rtype := p_type (params module) in
  let set_ptr := p_set_ptr (params module) in
  let ttl := p_ttl (params module) in
  let zone_name := p_zone (params module) in
  let server := p_server (params module) in
  let state := p_state (params module) in
  let name := if Py.endswith name "." then Py.rstrip name "." else name in
  let zone_name :=
    if Py.endswith zone_name "." then Py.rstrip zone_name "." else zone_name in
  let name :=
    if negb (Py.contains name zone_name) then name +:+ "." +:+ zone_name else name in
  record ←ˢ get_record pdns_client server zone_name name rtype;
  let existing_content := rec_content <$> records_of record in
  let content := sanitize rtype content in
  (if String.eqb state "present" then
     (if negb (nonempty existing_content) then
        try_except
          ((if negb (check_mode module) then
              _ ←ˢ create_record pdns_client server zone_name name rtype
                     content disabled ttl set_ptr; skip
            else skip) ;;
           r ←ˢ get_record pdns_client server zone_name name rtype;
           return_ (true, Some r))
          (fail_msg "create" name)
      else skip) ;;
     match content with
     | None => raise TypeError
     | Some content =>
         record_content ←ˢ lift (changed_items rtype existing_content
                                   (ttl_of record) ttl content []);
         let record_content :=
           if (Py.len_set content <? Py.len_set existing_content)%nat && exclusive
           then content else record_content in
         if (0 <? length record_content)%nat then
           let record_content := Py.set (record_content ++ content) in
           let record_content :=
             if negb exclusive then
               existing_content ++
               List.filter (λ item, negb (Py.in_list item existing_content))
                           record_content
             else record_content in
           try_except
             ((if negb (check_mode module) then
                 _ ←ˢ create_record pdns_client server zone_name name rtype
                        (Some record_content) disabled ttl set_ptr; skip
               else skip) ;;
              r ←ˢ get_record pdns_client server zone_name name rtype;
              return_ (true, Some r))
             (fail_msg "update" name)
         else skip
     end
   else if String.eqb state "absent" then
     if nonempty existing_content && exclusive then
       try_except
         ((if negb (check_mode module) then
             _ ←ˢ delete_record pdns_client server zone_name name rtype; skip
           else skip) ;;
          return_ (true, None))
         (fail_msg "delete" name)
     else if nonempty existing_content && negb exclusive then
       match content with
       | None => raise TypeError
       | Some content =>
           let record_content :=
             List.filter (λ item, negb (Py.in_list item content)) existing_content in
           if negb (length record_content =? length existing_content)%nat then
             try_except
               ((if negb (check_mode module) then
                   _ ←ˢ create_record pdns_client server zone_name name rtype
                          (Some record_content) disabled ttl set_ptr; skip
                 else skip) ;;
                r ←ˢ get_record pdns_client server zone_name name rtype;
                return_ (true, Some r))
               (fail_msg "delete" name) ;;
             try_except
               ((if negb (check_mode module) then
                   _ ←ˢ delete_record pdns_client server zone_name name rtype; skip
                 else skip) ;;
                return_ (true, None))
               (fail_msg "delete" name)
           else skip
       end
     else skip
   else skip) ;;
  return_ (false, Some record).

End Ensure.

(* ===================================================================== *)
(** ** The decision of [ensure] as a value *)
(* ===================================================================== *)

(** The zone and record names [ensure] works with, and the content after
    sanitizing. *)
Definition zone_of (module : AnsibleModule) : string :=
  let zone_name := p_zone (params module) in
  if Py.endswith zone_name "." then Py.rstrip zone_name "." else zone_name.

Definition name_of (module : AnsibleModule) : string :=
  let name := p_name (params module) in
  let name := if Py.endswith name "." then Py.rstrip name "." else name in
  if negb (Py.contains name (zone_of module))
  then name +:+ "." +:+ zone_of module else name.

Definition desired {text : Py.Lower} (module : AnsibleModule) : option (list string) :=
  sanitize (p_type (params module)) (p_content (params module)).

(** The URL of every request of an invocation. *)
Definition zone_url (module : AnsibleModule) (pdns_client : PowerDNSClient) : string :=
  _get_zone_url pdns_client (p_server (params module)) (zone_of module).

(** The record the initial read of [ensure] finds among [rrsets]. *)
Definition current (module : AnsibleModule) (rrsets : list RRset) : RecordDict :=
  first_rrset rrsets (_make_canonical (name_of module)) (p_type (params module)).

Definition existing_of (record : RecordDict) : list string :=
  rec_content <$> records_of record.

(** What [ensure] decides to do once it has read [record]. *)
Inductive Plan :=
| Keep                                                      (* [return False, record] *)
| Write (action : string) (content : option (list string))  (* [create_record], re-read *)
| Remove                                                    (* [delete_record] *)
| Abort (e : Exception).

Section Plan.

Context {text : Py.Lower} {order : Py.SetOrder}.

Definition plan (module : AnsibleModule) (record : RecordDict) : Plan :=
  let exclusive := p_exclusive (params module) in
  let rtype := p_type (params module) in
  let ttl := p_ttl (params module) in
  let state := p_state (params module) in
  let existing_content := existing_of record in
  if String.eqb state "present" then
    if negb (nonempty existing_content) then Write "create" (desired module)
    else
      match desired module with
      | None => Abort TypeError
      | Some content =>
          match changed_items rtype existing_content (ttl_of record) ttl content [] with
          | Raise e => Abort e
          | Ok record_content =>
              let record_content :=
                if (Py.len_set content <? Py.len_set existing_content)%nat && exclusive
                then content else record_content in
              if (0 <? length record_content)%nat then
                let record_content := Py.set (record_content ++ content) in
                Write "update"
                  (Some (if negb exclusive then
                           existing_content ++
                           List.filter (λ item, negb (Py.in_list item existing_content))
                                       record_content
                         else record_content))
              else Keep
          end
      end
  else if String.eqb state "absent" then
    if nonempty existing_content && exclusive then Remove
    else if nonempty existing_content && negb exclusive then
      match desired module with
      | None => Abort TypeError
      | Some content =>
          let record_content :=
            List.filter (λ item, negb (Py.in_list item content)) existing_content in
          if negb (length record_content =? length existing_content)%nat
          then Write "delete" (Some record_content) else Keep
      end
    else Keep
  else Keep.

End Plan.

(** The statements that carry a plan out. *)
Definition carry_out (module : AnsibleModule) (pdns_client : PowerDNSClient)
    (record : RecordDict) (p : Plan) : Stmt (bool * option RecordDict) :=
  let server := p_server (params module) in
  let rtype := p_type (params module) in
  match p with
  | Keep => return_ (false, Some record)
  | Write action content =>
      try_except
        ((if negb (check_mode module) then
            _ ←ˢ create_record pdns_client server (zone_of module) (name_of module) rtype
                   content (p_disabled (params module)) (p_ttl (params module))
                   (p_set_ptr (params module)); skip
          else skip) ;;
         r ←ˢ get_record pdns_client server (zone_of module) (name_of module) rtype;
         return_ (true, Some r))
        (fail_msg action (name_of module))
  | Remove =>
      try_except
        ((if negb (check_mode module) then
            _ ←ˢ delete_record pdns_client server (zone_of module) (name_of module) rtype;
            skip
          else skip) ;;
         return_ (true, None))
        (fail_msg "delete" (name_of module))
  | Abort e => raise e
  end.

(* ===================================================================== *)
(** ** Notions of the specification *)
(* ===================================================================== *)

(** [normalizeForType('TXT', value)] in the words of the specification:
    "strips any existing surrounding quotes first, then re-wraps". *)
Definition normalizeForType_TXT_spec (value : string) : string :=
  dquote +:+ Py.strip value dquote +:+ dquote.

(** ASCII whitespace: space, and tab to carriage return. *)
Definition is_whitespace (c : ascii) : bool :=
  let n := nat_of_ascii c in
  ((n =? 32) || ((9 <=? n) && (n <=? 13)))%nat.

(** The whitespace-separated fields of a string: its maximal runs of
    characters that are not whitespace. *)
Fixpoint whitespace_fields (s : string) : list string :=
  match s with
  | EmptyString => []
  | String a s' =>
      if is_whitespace a then whitespace_fields s'
      else match s' with
           | EmptyString => [String a EmptyString]
           | String b _ =>
               if is_whitespace b then String a EmptyString :: whitespace_fields s'
               else match whitespace_fields s' with
                    | w :: ws => String a w :: ws
                    | [] => [String a EmptyString]
                    end
           end
  end.

(** The horizontal tab. *)
Definition tab : string := Eval cbv in String (ascii_of_nat 9) EmptyString.

(** [soaSerial(content)] in the words of the specification: "the third
    whitespace-separated field of an SOA content string". *)
Definition soaSerial_spec (content : string) : option string :=
  whitespace_fields content !! 2%nat.

(** [soaWithoutSerial(content)] in the words of the specification: "the
    content string with the third field removed (fields 1-2 concatenated
    with 4+)", as the list of the fields that are left. *)
Definition soaWithoutSerial_spec (content : string) : list string :=
  take 2 (whitespace_fields content) ++ drop 3 (whitespace_fields content).

(** A field: a string without a space. *)
Definition field (p : string) : Prop := Py.has_char p " " = false.

(** An SOA content with serial [0] and a stored one that differ in the
    serial only: the same fields, joined by single spaces, but for the
    third. *)
Definition differ_in_serial_only (desired stored : string) : Prop :=
  ∃ mname rname s rest,
    Forall field (mname :: rname :: s :: rest)
    ∧ desired = Py.join " " (mname :: rname :: "0" :: rest)
    ∧ stored = Py.join " " (mname :: rname :: s :: rest).

(** Whether the loop of [ensure] appends [item]: it does not match the
    existing content, or the TTL differs. *)
Definition out_of_date (rtype : string) (existing_content : list string)
    (record_ttl : option Z) (ttl : Z) (item : string) : bool :=
  negb (default true (matches_existing_content rtype item existing_content))
  || negb (bool_decide (record_ttl = Some ttl)).

(** SOA contents that [serial] can split: at least three parts. *)
Definition splittable (rtype : string) (content : list string) : Prop :=
  rtype = "SOA" → Forall (λ item, (3 ≤ length (Py.split item " "))%nat) content.

(** Contents compared as they are: none is an SOA content with serial 0. *)
Definition literal (rtype : string) (content : list string) : Prop :=
  rtype = "SOA" → Forall (λ item, ∃ s, serial item = Some s ∧ s ≠ "0") content.

(** A string ends with exactly one separator. *)
Definition one_trailing_dot (s : string) : Prop :=
  Py.endswith s "." = true ∧ Py.endswith s ".." = false.

(** A remote none of whose coming requests fails. *)
Definition faultless (w : Remote) : Prop :=
  get_faults w = [] ∧ patch_faults w = [].

(** What the next request of a kind meets, if it meets anything. *)
Definition next_fault {A} (faults : list (option A)) : option A :=
  match faults with Some e :: _ => Some e | _ => None end.

(** The exception [get_record] raises for what its read meets. *)
Definition read_exception (f : ReadFault) : Exception :=
  match f with
  | ReadError e => Upstream e
  | NoRrsets => KeyError
  | NoDict => TypeError
  end.

(** How [try: ... get_record(...) except PowerDNSError as e:
    module.fail_json(...)] ends for what the read meets: the error of the
    remote is reported, any other exception escapes. *)
Definition reread_fails {R} (action name : string) (f : ReadFault) : Outcome R :=
  match f with
  | ReadError e => Failed (fail_msg action name e)
  | NoRrsets => Raised KeyError
  | NoDict => Raised TypeError
  end.

(** The remote after a successful read, and after a successful write that
    leaves [rs]. *)
Definition after_get (u : string) (w : Remote) : Remote :=
  {| rrsets := rrsets w; get_faults := tail (get_faults w);
     patch_faults := patch_faults w; log := log w ++ [GET u] |}.

Definition after_patch (u : string) (data : list RRsetChange) (w : Remote) : Remote :=
  {| rrsets := foldl (λ rs c, apply_change c rs) (rrsets w) data;
     get_faults := get_faults w; patch_faults := tail (patch_faults w);
     log := log w ++ [PATCH u data] |}.

(** The remote after a write that failed. *)
Definition after_failed_patch (u : string) (data : list RRsetChange) (w : Remote)
  : Remote :=
  {| rrsets := rrsets w; get_faults := get_faults w;
     patch_faults := tail (patch_faults w); log := log w ++ [PATCH u data] |}.

(** The request body of the replacement [ensure] sends for [payload], and
    the rrset the remote then holds. *)
Definition replacement (module : AnsibleModule) (payload : list string)
  : list RRsetChange :=
  _get_request_data REPLACE (_make_canonical (name_of module)) (p_type (params module))
    (p_set_ptr (params module)) (Some payload)
    (Some (p_disabled (params module))) (Some (p_ttl (params module))).

Definition deletion (module : AnsibleModule) : list RRsetChange :=
  _get_request_data DELETE (_make_canonical (name_of module)) (p_type (params module))
    false None None None.

Definition written (module : AnsibleModule) (payload : list string) : RRset :=
  {| rr_name := _make_canonical (name_of module);
     rr_type := p_type (params module);
     rr_ttl := Some (p_ttl (params module));
     rr_records :=
       (λ c, {| rec_content := c; rec_disabled := p_disabled (params module) |})
       <$> payload;
     rr_comments := [] |}.

(** What a read returns after [payload] was written. *)
Definition reread (module : AnsibleModule) (payload : list string) : RecordDict :=
  match payload with
  | [] => Default
  | _ => Found (written module payload)
  end.

Definition set_check_mode (b : bool) (module : AnsibleModule) : AnsibleModule :=
  {| params := params module; check_mode := b |}.

(** The same remote, with other failures in store for the writes. *)
Definition with_patch_faults (faults : list (option PowerDNSError)) (w : Remote)
  : Remote :=
  {| rrsets := rrsets w; get_faults := get_faults w;
     patch_faults := faults; log := log w |}.

(* ===================================================================== *)
(** ** Sample invocations *)
(* ===================================================================== *)

Module Sample.

Definition client : PowerDNSClient := {| url := "http://127.0.0.1:8081/api/v1" |}.

(** An invocation for the record [www] of the zone [example.com]. *)
Definition invocation (state rtype : string) (exclusive : bool)
    (content : option (list string)) (ttl : Z) (check : bool) : AnsibleModule :=
  {| params :=
       {| p_content := content; p_disabled := false; p_exclusive := exclusive;
          p_name := "www"; p_type := rtype; p_set_ptr := false; p_ttl := ttl;
          p_zone := "example.com"; p_server := "localhost"; p_state := state |};
     check_mode := check |}.

(** The rrset of [www.example.com.] as the remote returns it. *)
Definition stored (rtype : string) (content : list string) (ttl : Z) : RRset :=
  {| rr_name := "www.example.com."; rr_type := rtype; rr_ttl := Some ttl;
     rr_records := (λ c, {| rec_content := c; rec_disabled := false |}) <$> content;
     rr_comments := [] |}.

(** A remote that holds [rrsets] and answers every request. *)
Definition remote (rrsets : list RRset) : Remote :=
  {| rrsets := rrsets; get_faults := []; patch_faults := []; log := [] |}.

Definition zone : string :=
  "http://127.0.0.1:8081/api/v1/servers/localhost/zones/example.com".

End Sample.

(* ===================================================================== *)
(** ** HTTP responses *)
(* ===================================================================== *)

#[local] Set Warnings "-register-all".

(** A parsed JSON document as Python holds it: [JNull] is [None], an
    object is a [dict] (its keys distinct, as after parsing), an array a
    [list].  Numbers are the integers. *)
Inductive JSON :=
| JNull
| JBool (b : bool)
| JNumber (n : Z)
| JString (s : string)
| JArray (items : list JSON)
| JObject (fields : list (string * JSON)).

(** A response of the [requests] session.  [resp_json] is what
    [req.json()] returns, [None] when it raises. *)
Record Response := {
  resp_url : string;
  resp_status : Z;
  resp_text : string;
  resp_json : option JSON
}.

(** [key in value]; [None] is the [TypeError] for a value that is no
    container.  In a dict the keys are searched, in a list the elements,
    in a string the substrings. *)
Definition py_in (key : string) (value : JSON) : option bool :=
  match value with
  | JObject fields => Some (existsb (λ kv, String.eqb (fst kv) key) fields)
  | JArray items =>
      Some (existsb (λ item, match item with
                             | JString s => String.eqb s key
                             | _ => false
                             end) items)
  | JString s => Some (Py.contains s key)
  | _ => None
  end.

(** [value.get(key)]; [None] is the [AttributeError] for a value that is no
    dict.  A key that is missing gives [None], here [JNull]. *)
Definition py_get (key : string) (value : JSON) : option JSON :=
  match value with
  | JObject fields =>
      Some (match List.find (λ kv, String.eqb (fst kv) key) fields with
            | Some kv => snd kv
            | None => JNull
            end)
  | _ => None
  end.

(** The [try] block of [_get_request_error_message]; [None] when an
    exception is raised in it. *)
Definition request_error (data : Response) : option JSON :=
  request_json ← resp_json data;
  has_error ← py_in "error" request_json;
  if (has_error : bool) then py_get "error" request_json
  else
    has_errors ← py_in "errors" request_json;
    if (has_errors : bool) then py_get "errors" request_json
    else
      has_msg ← py_in "msg" request_json;
      if (has_msg : bool) then py_get "msg" request_json
      else Some JNull.

(** [except Exception: pass] and then [return data.text]. *)
Definition _get_request_error_message (data : Response) : JSON :=
  match request_error data with
  | Some message => message
  | None => JString (resp_text data)
  end.

(** What [_handle_request] does: it returns a document or raises
    [PowerDNSError(url, status_code, message)]. *)
Inductive Handled :=
| Body (document : JSON)
| Error (url : string) (status_code : Z) (message : JSON).

Definition _handle_request (req : Response) : Handled :=
  if bool_decide (resp_status req ∈ [200; 201; 204]) then
    if negb (String.eqb (resp_text req) "") then
      match resp_json req with
      | Some document => Body document
      | None => Body (JObject [])
      end
    else Body (JObject [])
  else if Z.eqb (resp_status req) 404 then
    Error (resp_url req) (resp_status req) (JString "Not found")
  else
    Error (resp_url req) (resp_status req) (_get_request_error_message req).

(* ===================================================================== *)
(** ** Further notions *)
(* ===================================================================== *)

(** [s.count(c)] for a character [c]. *)
Fixpoint count_char (s : string) (c : ascii) : nat :=
  match s with
  | EmptyString => 0
  | String a s' => (if Ascii.eqb a c then 1 else 0) + count_char s' c
  end.

(** The rrsets of the zone other than the one [ensure] works on. *)
Definition others (module : AnsibleModule) (rrsets : list RRset) : list RRset :=
  List.filter
    (λ r, negb (same_key (_make_canonical (name_of module)) (p_type (params module)) r))
    rrsets.

(** The invocation with other values of [disabled] and [set_ptr]. *)
Definition with_flags (disabled set_ptr : bool) (module : AnsibleModule)
  : AnsibleModule :=
  {| params :=
       {| p_content := p_content (params module);
          p_disabled := disabled;
          p_exclusive := p_exclusive (params module);
          p_name := p_name (params module);
          p_type := p_type (params module);
          p_set_ptr := set_ptr;
          p_ttl := p_ttl (params module);
          p_zone := p_zone (params module);
          p_server := p_server (params module);
          p_state := p_state (params module) |};
     check_mode := check_mode module |}.

(** The invocation with the record and zone names replaced by the names
    [ensure] derives from them. *)
Definition normalized (module : AnsibleModule) : AnsibleModule :=
  {| params :=
       {| p_content := p_content (params module);
          p_disabled := p_disabled (params module);
          p_exclusive := p_exclusive (params module);
          p_name := name_of module;
          p_type := p_type (params module);
          p_set_ptr := p_set_ptr (params module);
          p_ttl := p_ttl (params module);
          p_zone := zone_of module;
          p_server := p_server (params module);
          p_state := p_state (params module) |};
     check_mode := check_mode module |}.

(* ===================================================================== *)
(** ** Python string primitives: lemmas *)
(* ===================================================================== *)

Section PyLemmas.

Implicit Types s p chars : string.
Implicit Types c d : ascii.

Lemma endswith_unfold s p :
  Py.endswith s p =
  String.eqb s p || match s with EmptyString => false | String _ s' => Py.endswith s' p end.
Proof. destruct s; reflexivity. Qed.

Lemma endswith_refl p : Py.endswith p p = true.
Proof. rewrite endswith_unfold, String.eqb_refl. reflexivity. Qed.

Lemma endswith_app s p : Py.endswith (s +:+ p) p = true.
Proof.
  induction s as [|a s IH]; simpl.
  - apply endswith_refl.
  - fold (s +:+ p). rewrite IH. apply orb_true_r.
Qed.

Lemma endswith_cons a s p : Py.endswith s p = true → Py.endswith (String a s) p = true.
Proof. intros H. simpl. rewrite H. apply orb_true_r. Qed.

Lemma app_snoc_eq_single s c d : s +:+ String c "" = String d "" → s = "".
Proof.
  destruct s as [|a [|b s]]; simpl; [done|discriminate|discriminate].
Qed.

(** A string that ends with [dc] after [c] was appended ended with [d]. *)
Lemma endswith_snoc_inv s c d :
  Py.endswith (s +:+ String c "") (String d (String c "")) = true →
  Py.endswith s (String d "") = true.
Proof.
  induction s as [|a s IH]; simpl.
  - destruct (Ascii.eqb c d); simpl; discriminate.
  - fold (s +:+ String c ""). intros H.
    apply orb_true_iff in H as [H|H].
    + apply andb_true_iff in H as [Ha Hs].
      apply String.eqb_eq, app_snoc_eq_single in Hs. subst s.
      rewrite Ha. reflexivity.
    + rewrite (IH H). apply orb_true_r.
Qed.

(** What [lstrip] leaves does not start with a stripped character. *)
Lemma lstrip_head s chars a r :
  Py.lstrip s chars = String a r → Py.has_char chars a = false.
Proof.
  induction s as [|b s IH]; simpl; [discriminate|].
  destruct (Py.has_char chars b) eqn:Hb; [exact IH|].
  intros [= -> _]. exact Hb.
Qed.

(** [rstrip] keeps a first character that is not stripped. *)
Lemma rstrip_head s chars a :
  Py.has_char chars a = false →
  ∃ r, Py.rstrip (String a s) chars = String a r.
Proof.
  intros Ha. simpl. destruct (Py.rstrip s chars); rewrite ?Ha; eauto.
Qed.

(** What [rstrip] leaves does not end with a stripped character. *)
Lemma rstrip_last s chars c :
  Py.endswith (Py.rstrip s chars) (String c "") = true → Py.has_char chars c = false.
Proof.
  induction s as [|a s IH]; simpl; [discriminate|].
  destruct (Py.rstrip s chars) as [|b r] eqn:Hr.
  - destruct (Py.has_char chars a) eqn:Ha; simpl; [discriminate|].
    destruct (Ascii.eqb a c) eqn:Hac; simpl; [|discriminate].
    apply Ascii.eqb_eq in Hac. subst c. intros _. exact Ha.
  - intros H. apply IH.
    rewrite endswith_unfold in H.
    apply orb_true_iff in H as [H|H]; [|exact H].
    simpl in H. destruct (Ascii.eqb a c); discriminate.
Qed.

Lemma endswith_two_one s c :
  Py.endswith s (String c (String c "")) = true → Py.endswith s (String c "") = true.
Proof.
  induction s as [|a s IH]; [discriminate|].
  rewrite endswith_unfold. intros [H|H]%orb_true_iff.
  - apply String.eqb_eq in H as [= -> ->]. simpl.
    rewrite Ascii.eqb_refl. apply orb_true_r.
  - apply endswith_cons, IH, H.
Qed.

(** Appending one [c] to a string that does not end with [c] leaves it
    with exactly one. *)
Lemma endswith_snoc_once s c :
  Py.endswith s (String c "") = false →
  Py.endswith (s +:+ String c "") (String c (String c "")) = false.
Proof.
  intros H. apply not_true_is_false. intros H'.
  apply endswith_snoc_inv in H'. congruence.
Qed.

Lemma rstrip_not_endswith s c :
  Py.endswith (Py.rstrip s (String c "")) (String c "") = false.
Proof.
  apply not_true_is_false. intros H%rstrip_last.
  simpl in H. rewrite Ascii.eqb_refl in H. discriminate.
Qed.

Lemma strip_not_startswith s c :
  Py.startswith (Py.strip s (String c "")) (String c "") = false.
Proof.
  unfold Py.strip, Py.startswith.
  destruct (Py.lstrip s (String c "")) as [|a r] eqn:Hl; [reflexivity|].
  apply lstrip_head in Hl.
  destruct (rstrip_head r (String c "") a Hl) as [r' ->].
  simpl in *. rewrite orb_false_r in Hl.
  destruct (ascii_dec c a) as [->|]; [|reflexivity].
  rewrite Ascii.eqb_refl in Hl. discriminate.
Qed.

End PyLemmas.

(* ===================================================================== *)
(** ** Content comparator: theorems *)
(* ===================================================================== *)

Section Comparator.

Implicit Types rtype content : string.
Implicit Types existing_content : list string.

Lemma in_list_true x (l : list string) : x ∈ l → Py.in_list x l = true.
Proof. intros H. unfold Py.in_list. apply bool_decide_eq_true_2, H. Qed.

Lemma in_list_false x (l : list string) : x ∉ l → Py.in_list x l = false.
Proof. intros H. unfold Py.in_list. apply bool_decide_eq_false_2, H. Qed.

Lemma in_list_spec x (l : list string) : Py.in_list x l = true ↔ x ∈ l.
Proof. unfold Py.in_list. apply bool_decide_eq_true. Qed.

(** A string without the separator is its own single part. *)
Lemma split_field p sep : Py.has_char p sep = false → Py.split p sep = [p].
Proof.
  induction p as [|a p IH]; simpl; [reflexivity|].
  intros [Ha Hp]%orb_false_iff. rewrite Ha, (IH Hp). reflexivity.
Qed.

Lemma split_app_sep p sep rest :
  Py.has_char p sep = false →
  Py.split (p +:+ String sep rest) sep = p :: Py.split rest sep.
Proof.
  induction p as [|a p IH]; simpl.
  - intros _. rewrite Ascii.eqb_refl. reflexivity.
  - intros [Ha Hp]%orb_false_iff. fold (p +:+ String sep rest).
    rewrite Ha, (IH Hp). reflexivity.
Qed.

(** Splitting at the space undoes joining fields with single spaces. *)
Lemma split_join parts :
  parts ≠ [] → Forall field parts → Py.split (Py.join " " parts) " " = parts.
Proof.
  induction parts as [|p [|q ps] IH]; [done| |]; intros _ Hf.
  - apply split_field. apply Forall_inv in Hf. exact Hf.
  - change (Py.join " " (p :: q :: ps)) with (p +:+ String " " (Py.join " " (q :: ps))).
    rewrite split_app_sep by (apply Forall_inv in Hf; exact Hf).
    rewrite IH; [reflexivity|done|]. apply Forall_inv_tail in Hf. exact Hf.
Qed.

(** Contents that differ in the serial only are the same once the serial
    is ignored, and the serial of the desired one is [0]. *)
Lemma differ_in_serial_only_ignore desired stored :
  differ_in_serial_only desired stored →
  serial desired = Some "0" ∧ ignore_serial desired = ignore_serial stored.
Proof.
  intros (mname & rname & s & rest & Hf & -> & ->).
  assert (Hf' : Forall field (mname :: rname :: "0" :: rest)).
  { inversion Hf as [|? ? H1 Hf1]; subst. inversion Hf1 as [|? ? H2 Hf2]; subst.
    inversion Hf2 as [|? ? H3 Hf3]; subst. repeat constructor; assumption. }
  unfold serial, ignore_serial. rewrite !split_join by done. split; reflexivity.
Qed.

(** C10, as stated, fails: fields separated by tabs are whitespace-separated
    fields, but [serial] splits at the space character alone and finds no
    third part, so the comparison of an SOA content stored verbatim ends
    in an [IndexError] instead of [True]. *)
Lemma matches_existing_content_tab_separated :
  let content := "ns1" +:+ tab +:+ "hostmaster" +:+ tab +:+ "0" in
  whitespace_fields content = ["ns1"; "hostmaster"; "0"]
  ∧ content ∈ [content]
  ∧ Py.split content " " = [content]
  ∧ matches_existing_content "SOA" content [content] = None.
Proof.
  cbv zeta. split; [reflexivity|]. split; [|split; reflexivity].
  apply list_elem_of_singleton. reflexivity.
Qed.

(** A content that is among the existing ones matches. *)
Lemma matches_member rtype content existing_content :
  (rtype = "SOA" → (3 ≤ length (Py.split content " "))%nat) →
  content ∈ existing_content →
  matches_existing_content rtype content existing_content = Some true.
Proof.
  intros Hlen Hin. unfold matches_existing_content.
  destruct (String.eqb rtype "SOA") eqn:Hsoa.
  - apply String.eqb_eq in Hsoa. specialize (Hlen Hsoa).
    unfold serial.
    destruct (lookup_lt_is_Some_2 (Py.split content " ") 2 Hlen) as [s ->]. simpl.
    destruct (String.eqb s "0"); f_equal; apply in_list_true; [|exact Hin].
    apply list_elem_of_fmap_2, Hin.
  - f_equal. apply in_list_true, Hin.
Qed.

(** C10, amended: whatever the type, a desired content that is an element
    of the existing content matches, provided that, for SOA, splitting it
    at single spaces gives at least three parts. *)
Theorem matches_existing_content_reflexive rtype content existing_content :
  (rtype = "SOA" → (3 ≤ length (Py.split content " "))%nat) →
  content ∈ existing_content →
  matches_existing_content rtype content existing_content = Some true.
Proof. apply matches_member. Qed.

Lemma matches_existing_content_reflexive_witness :
  matches_existing_content "SOA" "ns1 hostmaster 0 3600"
    ["ns2 hostmaster 5 3600"; "ns1 hostmaster 0 3600"] = Some true.
Proof.
  apply matches_existing_content_reflexive.
  - intros _. vm_compute. lia.
  - apply list_elem_of_In. right. left. reflexivity.
Defined.

End Comparator.

(* ===================================================================== *)
(** ** Name canonicalization and TXT quoting *)
(* ===================================================================== *)

(** C8, as stated, fails: [_make_canonical] leaves a name that already ends
    with a separator alone, so ["a.."] keeps its two trailing separators. *)
Lemma make_canonical_keeps_two_dots :
  _make_canonical "a.." = "a.." ∧
  ¬ (∀ x, _make_canonical (_make_canonical x) = _make_canonical x
          ∧ one_trailing_dot (_make_canonical x)).
Proof.
  split; [reflexivity|]. intros H.
  destruct (H "a..") as [_ [_ H2]]. vm_compute in H2. discriminate.
Qed.

(** C8, amended: [_make_canonical] is idempotent and its result always ends
    with the separator; the result ends with exactly one separator whenever
    the input does not already end with two, and in particular for every
    name whose trailing separators were stripped, as [ensure] does before
    it calls the client. *)
Theorem make_canonical_idempotent (x : string) :
  _make_canonical (_make_canonical x) = _make_canonical x
  ∧ Py.endswith (_make_canonical x) "." = true
  ∧ (Py.endswith x ".." = false → one_trailing_dot (_make_canonical x))
  ∧ one_trailing_dot (_make_canonical (Py.rstrip x ".")).
Proof.
  assert (Hends : ∀ y, Py.endswith (_make_canonical y) "." = true).
  { intros y. unfold _make_canonical.
    destruct (Py.endswith y ".") eqn:Hy; simpl; [exact Hy|apply endswith_app]. }
  assert (Hone : ∀ y, Py.endswith y "." = false → one_trailing_dot (_make_canonical y)).
  { intros y Hy. split; [apply Hends|].
    unfold _make_canonical. rewrite Hy. simpl. apply endswith_snoc_once, Hy. }
  split; [|split; [|split]].
  - unfold _make_canonical at 1. rewrite Hends. reflexivity.
  - apply Hends.
  - intros H. destruct (Py.endswith x ".") eqn:Hx; [|apply Hone, Hx].
    split; [apply Hends|]. unfold _make_canonical. rewrite Hx. exact H.
  - apply Hone, rstrip_not_endswith.
Qed.

Lemma make_canonical_idempotent_witness :
  Py.endswith "www.example.com" ".." = false
  ∧ one_trailing_dot (_make_canonical "www.example.com").
Proof.
  split; [reflexivity|].
  exact (proj1 (proj2 (proj2 (make_canonical_idempotent "www.example.com"))) eq_refl).
Defined.

(** C7, as stated, fails: an item that already starts and ends with a
    double quote is left as it is.  The one-character item consisting of a
    double quote stays a single quote, which no pair of quotes wraps, and
    an item wrapped twice keeps both pairs where the rule of the
    specification would strip them. *)
Lemma quote_txt_keeps_quoted :
  quote_txt dquote = dquote
  ∧ (¬ ∃ m, quote_txt dquote = dquote +:+ m +:+ dquote)
  ∧ quote_txt (dquote +:+ dquote +:+ "a" +:+ dquote +:+ dquote)
    = dquote +:+ dquote +:+ "a" +:+ dquote +:+ dquote
  ∧ normalizeForType_TXT_spec (dquote +:+ dquote +:+ "a" +:+ dquote +:+ dquote)
    = dquote +:+ "a" +:+ dquote.
Proof.
  repeat split; try reflexivity.
  intros [m Hm]. vm_compute in Hm. destruct m; discriminate.
Qed.

(** C7, amended: TXT quoting is idempotent and its result always starts and
    ends with a double quote.  An item that already starts and ends with a
    double quote is left unchanged; every other item has all its leading and
    trailing double quotes stripped and is wrapped in one pair, the text
    inside neither starting nor ending with a double quote. *)
Theorem quote_txt_idempotent (x : string) :
  quote_txt (quote_txt x) = quote_txt x
  ∧ Py.startswith (quote_txt x) dquote = true
  ∧ Py.endswith (quote_txt x) dquote = true
  ∧ (Py.startswith x dquote && Py.endswith x dquote = true → quote_txt x = x)
  ∧ (Py.startswith x dquote && Py.endswith x dquote = false →
       quote_txt x = normalizeForType_TXT_spec x
       ∧ Py.startswith (Py.strip x dquote) dquote = false
       ∧ Py.endswith (Py.strip x dquote) dquote = false).
Proof.
  assert (Hs : ∀ m, Py.startswith (dquote +:+ m) dquote = true).
  { intros m. unfold Py.startswith, dquote. simpl. destruct m; reflexivity. }
  assert (He : ∀ m, Py.endswith (dquote +:+ m +:+ dquote) dquote = true).
  { intros m. apply endswith_cons, endswith_app. }
  unfold quote_txt, normalizeForType_TXT_spec.
  destruct (Py.startswith x dquote && Py.endswith x dquote) eqn:Hq; cbn [negb].
  - rewrite Hq. cbn [negb]. apply andb_true_iff in Hq as [H1 H2].
    split; [reflexivity|]. split; [exact H1|]. split; [exact H2|].
    split; [reflexivity|discriminate].
  - rewrite Hs, He. cbn [andb negb].
    do 3 (split; [reflexivity|]).
    split; [discriminate|]. intros _.
    split; [reflexivity|]. split; [apply strip_not_startswith|apply rstrip_not_endswith].
Qed.

Lemma quote_txt_idempotent_witness :
  quote_txt "hello" = dquote +:+ "hello" +:+ dquote
  ∧ quote_txt (dquote +:+ "hello" +:+ dquote) = dquote +:+ "hello" +:+ dquote.
Proof.
  split.
  - exact (proj1 (proj2 (proj2 (proj2 (proj2 (quote_txt_idempotent "hello")))) eq_refl)).
  - exact (proj1 (proj2 (proj2 (proj2 (quote_txt_idempotent (dquote +:+ "hello" +:+ dquote)))))
             eq_refl).
Defined.

(* ===================================================================== *)
(** ** Statements: lemmas *)
(* ===================================================================== *)

Section Statements.

Context {R : Type}.
Implicit Types s : Stmt R.

Lemma finishes_return (r : R) : finishes (return_ r).
Proof. intros w; discriminate. Qed.

Lemma finishes_raise (e : Exception) : finishes (@raise R e).
Proof. intros w; discriminate. Qed.

Lemma finishes_seq_l s1 s2 : finishes s1 → finishes (s1 ;; s2).
Proof.
  intros H w. unfold seq. specialize (H w).
  destruct (s1 w) as [[]]; simpl in *; congruence.
Qed.

Lemma finishes_seq_r s1 s2 : finishes s2 → finishes (s1 ;; s2).
Proof.
  intros H w. unfold seq.
  destruct (s1 w) as [[] w']; simpl; try discriminate. apply H.
Qed.

Lemma finishes_eval {A} (m : M A) (k : A → Stmt R) :
  (∀ a, finishes (k a)) → finishes (eval m k).
Proof.
  intros H w. unfold eval.
  destruct (m w) as [[a|e] w']; simpl; try discriminate. apply H.
Qed.

Lemma finishes_try_except s handler : finishes s → finishes (try_except s handler).
Proof.
  intros H w. unfold try_except. specialize (H w).
  destruct (s w) as [[| | [] |] w']; simpl in *; congruence.
Qed.

Lemma seq_finished s1 s2 w : finishes s1 → (s1 ;; s2) w = s1 w.
Proof.
  intros H. unfold seq. specialize (H w).
  destruct (s1 w) as [[] w']; simpl in *; congruence.
Qed.

Lemma seq_skip s w : (skip ;; s) w = s w.
Proof. reflexivity. Qed.

Lemma seq_assoc s1 s2 s3 w : ((s1 ;; s2) ;; s3) w = (s1 ;; (s2 ;; s3)) w.
Proof. unfold seq. destruct (s1 w) as [[] w']; reflexivity. Qed.

Lemma eval_seq {A} (m : M A) (k : A → Stmt R) s w :
  (eval m k ;; s) w = eval m (λ a, k a ;; s) w.
Proof. unfold seq, eval. destruct (m w) as [[a|e] w']; reflexivity. Qed.

Lemma eval_ext {A} (m : M A) (k k' : A → Stmt R) w :
  (∀ a w', k a w' = k' a w') → eval m k w = eval m k' w.
Proof.
  intros H. unfold eval. destruct (m w) as [[a|e] w']; [apply H|done].
Qed.

Lemma eval_lift_ok {A} (a : A) (k : A → Stmt R) w : eval (lift (Ok a)) k w = k a w.
Proof. reflexivity. Qed.

Lemma eval_lift_raise {A} (e : Exception) (k : A → Stmt R) w :
  eval (lift (Raise e)) k w = raise e w.
Proof. reflexivity. Qed.

End Statements.

(** Blocks that end in [return] or [raise] on every path finish. *)
Ltac finish :=
  lazymatch goal with
  | |- finishes (return_ _) => apply finishes_return
  | |- finishes (raise _) => apply finishes_raise
  | |- finishes (try_except _ _) => apply finishes_try_except; finish
  | |- finishes (eval _ _) => apply finishes_eval; intros ?; cbv beta; finish
  | |- finishes (seq _ _) =>
      first [ solve [apply finishes_seq_r; finish]
            | solve [apply finishes_seq_l; finish] ]
  end.

(* ===================================================================== *)
(** ** The client against the remote *)
(* ===================================================================== *)

Section Client.

Variables (self : PowerDNSClient) (server zone name rtype : string).

Lemma get_record_run w :
  get_record self server zone name rtype w =
  (match next_fault (get_faults w) with
   | Some f => Raise (read_exception f)
   | None => Ok (first_rrset (rrsets w) (_make_canonical name) rtype)
   end, after_get (_get_zone_url self server zone) w).
Proof.
  unfold get_record, bind, session_get, ret, after_get, next_fault.
  destruct (get_faults w) as [|[[e| |]|] tl]; reflexivity.
Qed.

Lemma session_patch_run u data w :
  session_patch u data w =
  match next_fault (patch_faults w) with
  | Some e => (Raise (Upstream e), after_failed_patch u data w)
  | None => (Ok (), after_patch u data w)
  end.
Proof.
  unfold session_patch, after_patch, after_failed_patch, next_fault.
  destruct (patch_faults w) as [|[e|] tl]; reflexivity.
Qed.

End Client.

(* ===================================================================== *)
(** ** [ensure] carries out its plan *)
(* ===================================================================== *)

Section EnsurePlan.

Context {text : Py.Lower} {order : Py.SetOrder}.

Lemma ensure_plan module pdns_client w :
  ensure module pdns_client w =
  (record ←ˢ get_record pdns_client (p_server (params module)) (zone_of module)
               (name_of module) (p_type (params module));
   carry_out module pdns_client record (plan module record)) w.
Proof.
  unfold ensure. cbv zeta. apply eval_ext. intros record w1.
  unfold plan, desired, existing_of.
  destruct (String.eqb (p_state (params module)) "present").
  - destruct (nonempty (rec_content <$> records_of record)); cbn [negb].
    + rewrite seq_assoc, seq_skip.
      destruct (sanitize _ _) as [c|]; [|reflexivity].
      rewrite eval_seq.
      destruct (changed_items _ _ _ _ c []) as [rc|e];
        [rewrite eval_lift_ok|rewrite eval_lift_raise; reflexivity].
      cbv zeta.
      match goal with |- context [(0 <? length ?l)%nat] =>
        destruct (0 <? length l)%nat end; [|reflexivity].
      rewrite seq_finished; [reflexivity|finish].
    + rewrite !seq_finished; [reflexivity|finish..].
  - destruct (String.eqb (p_state (params module)) "absent"); [|reflexivity].
    destruct (nonempty (rec_content <$> records_of record)); cbn [andb];
      [|reflexivity].
    destruct (p_exclusive (params module)); cbn [negb].
    + rewrite seq_finished; [reflexivity|finish].
    + destruct (sanitize _ _) as [c|]; [|reflexivity].
      cbv zeta.
      match goal with |- context [negb ?b] => destruct b end; cbn [negb];
        [reflexivity|].
      rewrite seq_assoc, seq_finished; [reflexivity|finish].
Qed.

(** The plan does not look at the check-mode flag. *)
Lemma plan_set_check_mode b module record :
  plan (set_check_mode b module) record = plan module record.
Proof. reflexivity. Qed.

(** [ensure] reads first; a failure of that read escapes. *)
Lemma ensure_run module pdns_client w :
  ensure module pdns_client w =
  match next_fault (get_faults w) with
  | Some f => (Raised (read_exception f), after_get (zone_url module pdns_client) w)
  | None =>
      carry_out module pdns_client (current module (rrsets w))
        (plan module (current module (rrsets w)))
        (after_get (zone_url module pdns_client) w)
  end.
Proof.
  rewrite ensure_plan. unfold eval. rewrite get_record_run.
  destruct (next_fault (get_faults w)); reflexivity.
Qed.

End EnsurePlan.

Section CarryOut.

Variables (module : AnsibleModule) (pdns_client : PowerDNSClient).
Let u := zone_url module pdns_client.

Lemma request_data_replacement content :
  _get_request_data REPLACE (_make_canonical (name_of module)) (p_type (params module))
    (p_set_ptr (params module)) content (Some (p_disabled (params module)))
    (Some (p_ttl (params module)))
  = replacement module (default [] content).
Proof. reflexivity. Qed.

(** In check mode nothing is written: a re-read, or nothing at all. *)
Lemma carry_out_check record p w :
  check_mode module = true →
  carry_out module pdns_client record p w =
  match p with
  | Keep => (Return (false, Some record), w)
  | Write action _ =>
      (match next_fault (get_faults w) with
       | Some f => reread_fails action (name_of module) f
       | None => Return (true, Some (current module (rrsets w)))
       end, after_get u w)
  | Remove => (Return (true, None), w)
  | Abort e => (Raised e, w)
  end.
Proof.
  intros Hc. destruct p as [|action content| |e]; try reflexivity.
  - unfold carry_out. rewrite Hc. cbn [negb]. unfold try_except.
    rewrite seq_skip. unfold eval. rewrite get_record_run.
    destruct (next_fault (get_faults w)) as [[]|]; reflexivity.
  - unfold carry_out. rewrite Hc. reflexivity.
Qed.

(** Outside check mode: the write, then the re-read. *)
Lemma carry_out_run record p w :
  check_mode module = false →
  carry_out module pdns_client record p w =
  match p with
  | Keep => (Return (false, Some record), w)
  | Write action content =>
      let data := replacement module (default [] content) in
      match next_fault (patch_faults w) with
      | Some e =>
          (Failed (fail_msg action (name_of module) e), after_failed_patch u data w)
      | None =>
          let w' := after_patch u data w in
          (match next_fault (get_faults w') with
           | Some f => reread_fails action (name_of module) f
           | None => Return (true, Some (current module (rrsets w')))
           end, after_get u w')
      end
  | Remove =>
      match next_fault (patch_faults w) with
      | Some e =>
          (Failed (fail_msg "delete" (name_of module) e),
           after_failed_patch u (deletion module) w)
      | None => (Return (true, None), after_patch u (deletion module) w)
      end
  | Abort e => (Raised e, w)
  end.
Proof.
  intros Hc. destruct p as [|action content| |e]; try reflexivity.
  - unfold carry_out. rewrite Hc. cbn [negb]. unfold try_except.
    rewrite eval_seq. unfold eval at 1. unfold create_record.
    rewrite session_patch_run, request_data_replacement.
    destruct (next_fault (patch_faults w)); [reflexivity|].
    rewrite seq_skip. unfold eval. rewrite get_record_run. cbv zeta.
    destruct (next_fault (get_faults _)) as [[]|]; reflexivity.
  - unfold carry_out. rewrite Hc. cbn [negb]. unfold try_except.
    rewrite eval_seq. unfold eval. unfold delete_record.
    rewrite session_patch_run.
    destruct (next_fault (patch_faults w)); reflexivity.
Qed.

End CarryOut.

(* ===================================================================== *)
(** ** What the remote holds after a write *)
(* ===================================================================== *)

Section Store.

Variable module : AnsibleModule.

Lemma find_filter_negb {A} (f : A → bool) (l : list A) :
  List.find f (List.filter (λ x, negb (f x)) l) = None.
Proof.
  induction l as [|x l IH]; simpl; [reflexivity|].
  destruct (f x) eqn:Hx; simpl; [exact IH|]. rewrite Hx. exact IH.
Qed.

Lemma same_key_written payload :
  same_key (_make_canonical (name_of module)) (p_type (params module))
           (written module payload) = true.
Proof. unfold same_key, written. simpl. rewrite !String.eqb_refl. reflexivity. Qed.

Lemma rrsets_after_replacement u payload w :
  rrsets (after_patch u (replacement module payload) w) =
  let others :=
    List.filter
      (λ r, negb (same_key (_make_canonical (name_of module)) (p_type (params module)) r))
      (rrsets w) in
  match payload with
  | [] => others
  | _ => written module payload :: others
  end.
Proof.
  destruct payload as [|x payload]; [reflexivity|].
  unfold after_patch, replacement, _get_request_data, apply_change, written.
  cbn. do 3 f_equal. rewrite <- list_fmap_compose. reflexivity.
Qed.

Lemma current_after_replacement u payload w :
  current module (rrsets (after_patch u (replacement module payload) w)) =
  match payload with
  | [] => Default
  | _ => Found (written module payload)
  end.
Proof.
  rewrite rrsets_after_replacement. unfold current, first_rrset. cbv zeta.
  destruct payload as [|x payload].
  - rewrite find_filter_negb. reflexivity.
  - cbn [List.find]. rewrite same_key_written. reflexivity.
Qed.

Lemma current_after_deletion u w :
  current module (rrsets (after_patch u (deletion module) w)) = Default.
Proof.
  change (rrsets (after_patch u (deletion module) w)) with
    (List.filter
       (λ r, negb (same_key (_make_canonical (name_of module)) (p_type (params module)) r))
       (rrsets w)).
  unfold current, first_rrset. rewrite find_filter_negb. reflexivity.
Qed.

Lemma current_after_get u w :
  current module (rrsets (after_get u w)) = current module (rrsets w).
Proof. reflexivity. Qed.

Lemma existing_of_written payload :
  existing_of (Found (written module payload)) = payload.
Proof.
  unfold existing_of, written. cbn [records_of rr_records].
  rewrite <- list_fmap_compose. apply list_fmap_id.
Qed.

Lemma ttl_of_written payload :
  ttl_of (Found (written module payload)) = Some (p_ttl (params module)).
Proof. reflexivity. Qed.

Lemma faultless_after_get u w : faultless w → faultless (after_get u w).
Proof. intros [Hg Hp]. split; simpl; [rewrite Hg|]; done. Qed.

Lemma faultless_after_patch u data w : faultless w → faultless (after_patch u data w).
Proof. intros [Hg Hp]. split; simpl; [|rewrite Hp]; done. Qed.

Lemma faultless_next_get w : faultless w → next_fault (get_faults w) = None.
Proof. intros [-> _]. reflexivity. Qed.

Lemma faultless_next_patch w : faultless w → next_fault (patch_faults w) = None.
Proof. intros [_ ->]. reflexivity. Qed.

End Store.

(* ===================================================================== *)
(** ** Lists as sets *)
(* ===================================================================== *)

Section Sets.

Context {text : Py.Lower} {order : Py.SetOrder}.
Implicit Types l k : list string.

Lemma set_elem x l : x ∈ Py.set l ↔ x ∈ l.
Proof. rewrite (Py.set_perm l). apply elem_of_remove_dups. Qed.

Lemma set_NoDup l : NoDup (Py.set l).
Proof. rewrite (Py.set_perm l). apply NoDup_remove_dups. Qed.

(** Lists with the same elements give the same set. *)
Lemma set_same_elements l k : (∀ x, x ∈ l ↔ x ∈ k) → Py.set l ≡ₚ remove_dups k.
Proof.
  intros H. apply NoDup_Permutation.
  - apply set_NoDup.
  - apply NoDup_remove_dups.
  - intros x. rewrite set_elem, elem_of_remove_dups. apply H.
Qed.

Lemma set_nonempty l : l ≠ [] → Py.set l ≠ [].
Proof.
  destruct l as [|x l]; [done|]. intros _ Hs.
  assert (Hx : x ∈ Py.set (x :: l)) by (apply set_elem; left).
  rewrite Hs in Hx. inversion Hx.
Qed.

Lemma len_set_same l k : (∀ x, x ∈ l ↔ x ∈ k) → Py.len_set l = Py.len_set k.
Proof.
  intros H. unfold Py.len_set. apply Permutation_length, NoDup_Permutation;
    try apply NoDup_remove_dups.
  intros x. rewrite !elem_of_remove_dups. apply H.
Qed.


Lemma filter_Permutation_bool (f : string → bool) l k :
  l ≡ₚ k → List.filter f l ≡ₚ List.filter f k.
Proof.
  induction 1 as [|x l k _ IH|x y l|l k j _ IH1 _ IH2]; simpl.
  - reflexivity.
  - destruct (f x); [constructor|]; exact IH.
  - destruct (f x), (f y); try reflexivity. apply perm_swap.
  - etransitivity; eassumption.
Qed.

Lemma elem_of_filter_bool (f : string → bool) l x :
  x ∈ List.filter f l ↔ x ∈ l ∧ f x = true.
Proof. rewrite !list_elem_of_In. apply List.filter_In. Qed.

Lemma filter_bool_nil (f : string → bool) l :
  (∀ x, x ∈ l → f x = false) → List.filter f l = [].
Proof.
  induction l as [|x l IH]; simpl; [reflexivity|]. intros H.
  rewrite (H x) by left. apply IH. intros y Hy. apply H. right. exact Hy.
Qed.

Lemma filter_bool_all (f : string → bool) l :
  (∀ x, x ∈ l → f x = true) → List.filter f l = l.
Proof.
  induction l as [|x l IH]; simpl; [reflexivity|]. intros H.
  rewrite (H x) by left. f_equal. apply IH. intros y Hy. apply H. right. exact Hy.
Qed.

End Sets.

(* ===================================================================== *)
(** ** The loop over the desired content *)
(* ===================================================================== *)

Section Loop.

Variables (rtype : string) (existing_content : list string).
Variables (record_ttl : option Z) (ttl : Z).

Lemma matches_is_Some item :
  (rtype = "SOA" → (3 ≤ length (Py.split item " "))%nat) →
  is_Some (matches_existing_content rtype item existing_content).
Proof.
  intros H. unfold matches_existing_content.
  destruct (String.eqb rtype "SOA") eqn:Hsoa; [|eauto].
  apply String.eqb_eq in Hsoa. unfold serial.
  destruct (lookup_lt_is_Some_2 (Py.split item " ") 2 (H Hsoa)) as [s ->]. simpl.
  destruct (String.eqb s "0"); eauto.
Qed.

(** Without SOA contents of serial 0 the comparison is list membership. *)
Lemma matches_literal item :
  (rtype = "SOA" → ∃ s, serial item = Some s ∧ s ≠ "0") →
  matches_existing_content rtype item existing_content
  = Some (Py.in_list item existing_content).
Proof.
  intros H. unfold matches_existing_content.
  destruct (String.eqb rtype "SOA") eqn:Hsoa; [|reflexivity].
  apply String.eqb_eq in Hsoa. destruct (H Hsoa) as (s & -> & Hs). simpl.
  apply String.eqb_neq in Hs. rewrite Hs. reflexivity.
Qed.


(** The loop keeps the items that are out of date, in order. *)
Lemma changed_items_filter content record_content :
  splittable rtype content →
  changed_items rtype existing_content record_ttl ttl content record_content =
  Ok (record_content ++
      List.filter (out_of_date rtype existing_content record_ttl ttl) content).
Proof.
  intros Hs. revert record_content.
  induction content as [|item content IH]; intros record_content; simpl.
  - rewrite app_nil_r. reflexivity.
  - assert (Hi : is_Some (matches_existing_content rtype item existing_content)).
    { apply matches_is_Some. intros Hsoa. specialize (Hs Hsoa).
      apply Forall_inv in Hs. exact Hs. }
    destruct Hi as [m Hm]. unfold out_of_date at 1. rewrite Hm. simpl.
    rewrite IH.
    + destruct (negb m || negb (bool_decide (record_ttl = Some ttl)));
        [rewrite <- app_assoc|]; reflexivity.
    + intros Hsoa. specialize (Hs Hsoa). apply Forall_inv_tail in Hs. exact Hs.
Qed.

(** The first SOA content without a third part stops the loop. *)
Lemma changed_items_raise content record_content item :
  rtype = "SOA" → item ∈ content → serial item = None →
  changed_items rtype existing_content record_ttl ttl content record_content =
  Raise IndexError.
Proof.
  intros -> Hin Hs. revert record_content.
  induction content as [|x content IH]; intros record_content; [inversion Hin|].
  simpl. unfold matches_existing_content at 1. simpl.
  destruct (serial x) as [s|] eqn:Hx; simpl; [|reflexivity].
  apply elem_of_cons in Hin as [->|Hin]; [congruence|].
  destruct (String.eqb s "0"); apply IH, Hin.
Qed.

End Loop.

(* ===================================================================== *)
(** ** Outcomes of [ensure] *)
(* ===================================================================== *)

Section Outcomes.

Context {text : Py.Lower} {order : Py.SetOrder}.
Variables (module : AnsibleModule) (pdns_client : PowerDNSClient).
Let u := zone_url module pdns_client.

(** Nothing to do: one read, and the record read is returned. *)
Lemma ensure_keep w :
  next_fault (get_faults w) = None →
  plan module (current module (rrsets w)) = Keep →
  ensure module pdns_client w
  = (Return (false, Some (current module (rrsets w))), after_get u w).
Proof. intros Hr Hp. rewrite ensure_run, Hr, Hp. reflexivity. Qed.

Lemma ensure_abort w e :
  next_fault (get_faults w) = None →
  plan module (current module (rrsets w)) = Abort e →
  ensure module pdns_client w = (Raised e, after_get u w).
Proof. intros Hr Hp. rewrite ensure_run, Hr, Hp. reflexivity. Qed.

(** A write that goes through: read, replacement, re-read. *)
Lemma ensure_write w action content :
  check_mode module = false → faultless w →
  plan module (current module (rrsets w)) = Write action content →
  let payload := default [] content in
  let w' := after_get u (after_patch u (replacement module payload) (after_get u w)) in
  ensure module pdns_client w
  = (Return (true, Some (match payload with
                         | [] => Default
                         | _ => Found (written module payload)
                         end)), w').
Proof.
  intros Hc Hf Hp. cbv zeta.
  rewrite ensure_run, (faultless_next_get _ Hf), Hp, carry_out_run by exact Hc.
  cbv zeta. fold u.
  rewrite (faultless_next_patch (after_get u w)) by apply faultless_after_get, Hf.
  rewrite (faultless_next_get (after_patch _ _ _))
    by apply faultless_after_patch, faultless_after_get, Hf.
  rewrite current_after_replacement. reflexivity.
Qed.

Lemma ensure_remove w :
  check_mode module = false → faultless w →
  plan module (current module (rrsets w)) = Remove →
  ensure module pdns_client w
  = (Return (true, None), after_patch u (deletion module) (after_get u w)).
Proof.
  intros Hc Hf Hp.
  rewrite ensure_run, (faultless_next_get _ Hf), Hp, carry_out_run by exact Hc.
  fold u.
  rewrite (faultless_next_patch (after_get u w)) by apply faultless_after_get, Hf.
  reflexivity.
Qed.

Lemma nonempty_true {A} (l : list A) : l ≠ [] → nonempty l = true.
Proof. destruct l; done. Qed.

(** The plan for [state=present] against an existing recordset. *)
Lemma plan_present record content :
  p_state (params module) = "present" →
  existing_of record ≠ [] →
  desired module = Some content →
  splittable (p_type (params module)) content →
  plan module record =
  let existing_content := existing_of record in
  let exclusive := p_exclusive (params module) in
  let record_content :=
    if (Py.len_set content <? Py.len_set existing_content)%nat && exclusive
    then content
    else List.filter (out_of_date (p_type (params module)) existing_content
                        (ttl_of record) (p_ttl (params module))) content in
  if (0 <? length record_content)%nat then
    Write "update"
      (Some (if negb exclusive then
               existing_content ++
               List.filter (λ item, negb (Py.in_list item existing_content))
                           (Py.set (record_content ++ content))
             else Py.set (record_content ++ content)))
  else Keep.
Proof.
  intros Hst Hex Hd Hs. unfold plan.
  rewrite Hst, Hd, (nonempty_true _ Hex), changed_items_filter by exact Hs.
  reflexivity.
Qed.

Lemma filter_bool_nil_inv (f : string → bool) l x :
  List.filter f l = [] → x ∈ l → f x = false.
Proof.
  intros Hnil Hx. apply not_true_is_false. intros Hf.
  assert (H : x ∈ List.filter f l) by (apply elem_of_filter_bool; done).
  rewrite Hnil in H. inversion H.
Qed.

Lemma length_pos_true {A} (l : list A) : l ≠ [] → (0 <? length l)%nat = true.
Proof. destruct l; [done|reflexivity]. Qed.



End Outcomes.




(* ===================================================================== *)
(** ** Merging into an existing recordset *)
(* ===================================================================== *)

Section Merge.

Context {text : Py.Lower} {order : Py.SetOrder}.
Variables (module : AnsibleModule) (pdns_client : PowerDNSClient).
Let u := zone_url module pdns_client.

(** C3, amended: with [state=present], [exclusive=false] and an existing
    recordset.  When, for the type SOA, every desired entry splits at
    single spaces into at least three parts: if the desired content is not
    empty, the TTL differs or some desired entry does not match, and every
    desired entry that matches is itself among the existing content, then
    the recordset is rewritten with the existing content, in its order,
    followed by the distinct desired entries that do not match, which are
    those that are not among the existing content; every entry written,
    the existing ones too, gets the TTL and the disabled flag of the
    invocation; if no content is desired, also when the TTL differs, or
    the TTL agrees and every desired entry matches, the only request is the
    read and the result is unchanged.  Without SOA contents whose third
    part is ["0"], a desired entry matches exactly when it is among the
    existing ones.  A desired SOA entry with fewer than three parts ends
    the invocation in an [IndexError] after the read. *)
Theorem ensure_present_merge content w :
  p_state (params module) = "present" →
  p_exclusive (params module) = false →
  check_mode module = false →
  faultless w →
  existing_of (current module (rrsets w)) ≠ [] →
  desired module = Some content →
  (splittable (p_type (params module)) content →
   (∀ item, item ∈ content →
      matches_existing_content (p_type (params module)) item
        (existing_of (current module (rrsets w))) = Some true →
      item ∈ existing_of (current module (rrsets w))) →
   (content ≠ []
    ∧ (ttl_of (current module (rrsets w)) ≠ Some (p_ttl (params module))
       ∨ ∃ item, item ∈ content
           ∧ matches_existing_content (p_type (params module)) item
               (existing_of (current module (rrsets w))) = Some false)) →
   ∃ fresh,
     fresh ≡ₚ List.filter
                (λ item, negb (Py.in_list item (existing_of (current module (rrsets w)))))
                (remove_dups content)
     ∧ (∀ item, item ∈ fresh ↔
          item ∈ content
          ∧ matches_existing_content (p_type (params module)) item
              (existing_of (current module (rrsets w))) = Some false)
     ∧ ensure module pdns_client w
       = (Return (true, Some (Found (written module
                    (existing_of (current module (rrsets w)) ++ fresh)))),
          after_get u
            (after_patch u
               (replacement module (existing_of (current module (rrsets w)) ++ fresh))
               (after_get u w))))
  ∧ (splittable (p_type (params module)) content →
     (content = []
      ∨ (ttl_of (current module (rrsets w)) = Some (p_ttl (params module))
         ∧ ∀ item, item ∈ content →
             matches_existing_content (p_type (params module)) item
               (existing_of (current module (rrsets w))) = Some true)) →
     ensure module pdns_client w
     = (Return (false, Some (current module (rrsets w))), after_get u w))
  ∧ (literal (p_type (params module)) content →
     ∀ item, item ∈ content →
       matches_existing_content (p_type (params module)) item
         (existing_of (current module (rrsets w))) = Some true
       ↔ item ∈ existing_of (current module (rrsets w)))
  ∧ (p_type (params module) = "SOA" →
     (∃ item, item ∈ content ∧ serial item = None) →
     ensure module pdns_client w = (Raised IndexError, after_get u w)).
Proof.
  intros Hst Hexcl Hc Hf Hex Hd.
  set (record := current module (rrsets w)) in *.
  assert (Hplan0 : splittable (p_type (params module)) content →
            plan module record
            = (let stale :=
                 List.filter (out_of_date (p_type (params module)) (existing_of record)
                                (ttl_of record) (p_ttl (params module))) content in
               if (0 <? length stale)%nat
               then Write "update"
                      (Some (existing_of record ++
                             List.filter
                               (λ item, negb (Py.in_list item (existing_of record)))
                               (Py.set (stale ++ content))))
               else Keep)).
  { intros Hs. pose proof (plan_present module record content Hst Hex Hd Hs) as Hplan.
    cbv zeta in Hplan. rewrite Hexcl, andb_false_r in Hplan. cbn [negb] in Hplan.
    exact Hplan. }
  split; [|split; [|split]].
  - intros Hs Hmem [Hne Hwhy].
    pose proof (Hplan0 Hs) as Hplan. cbv zeta in Hplan.
    set (stale := List.filter _ content) in Hplan.
    assert (Hstale : stale ≠ []).
    { destruct Hwhy as [Httl|(item & Hin & Hm)].
      - destruct content as [|x content']; [done|].
        intros Hnil. apply (filter_bool_nil_inv _ _ x) in Hnil; [|left].
        unfold out_of_date in Hnil. apply orb_false_iff in Hnil as [_ Hnil].
        apply negb_false_iff, bool_decide_eq_true in Hnil. done.
      - intros Hnil. apply (filter_bool_nil_inv _ _ item) in Hnil; [|exact Hin].
        unfold out_of_date in Hnil. rewrite Hm in Hnil. discriminate. }
    rewrite (length_pos_true _ Hstale) in Hplan.
    exists (List.filter (λ item, negb (Py.in_list item (existing_of record)))
                        (Py.set (stale ++ content))).
    split; [|split].
    + apply filter_Permutation_bool, set_same_elements.
      intros x. rewrite elem_of_app. split; [|tauto].
      intros [Hx|Hx]; [|exact Hx]. apply elem_of_filter_bool in Hx. tauto.
    + intros item. rewrite elem_of_filter_bool, set_elem, elem_of_app.
      assert (Hsub : item ∈ stale ∨ item ∈ content ↔ item ∈ content).
      { split; [|tauto]. intros [Hx|Hx]; [|exact Hx].
        apply elem_of_filter_bool in Hx. tauto. }
      rewrite Hsub. split; intros [Hin Hm]; (split; [exact Hin|]).
      * apply negb_true_iff in Hm.
        destruct (matches_is_Some (p_type (params module)) (existing_of record) item)
          as [[|] Hb].
        -- intros Hsoa. specialize (Hs Hsoa). rewrite Forall_forall in Hs.
           apply Hs, Hin.
        -- apply (Hmem item Hin), in_list_true in Hb. congruence.
        -- exact Hb.
      * apply negb_true_iff, in_list_false. intros Hex'.
        rewrite (matches_member (p_type (params module)) item (existing_of record))
          in Hm; [discriminate| |exact Hex'].
        intros Hsoa. specialize (Hs Hsoa). rewrite Forall_forall in Hs.
        apply Hs, Hin.
    + pose proof (ensure_write module pdns_client w _ _ Hc Hf Hplan) as Hw.
      cbv zeta in Hw. cbn [default from_option id] in Hw. rewrite Hw.
      destruct (existing_of record ++ _) eqn:Happ; [|reflexivity].
      apply app_eq_nil in Happ as [Happ _]. done.
  - intros Hs Hwhy.
    pose proof (Hplan0 Hs) as Hplan. cbv zeta in Hplan.
    set (stale := List.filter _ content) in Hplan.
    assert (Hnil : stale = []).
    { destruct Hwhy as [->|[Httl Hm]]; [reflexivity|].
      apply filter_bool_nil. intros x Hx. unfold out_of_date.
      rewrite (Hm x Hx). simpl. rewrite bool_decide_eq_true_2 by exact Httl.
      reflexivity. }
    rewrite Hnil in Hplan. cbn in Hplan.
    apply ensure_keep; [apply faultless_next_get, Hf|exact Hplan].
  - intros Hlit item Hin. rewrite matches_literal.
    + rewrite <- in_list_spec. split; [intros [= ->]; reflexivity|intros ->; reflexivity].
    + intros Hsoa. specialize (Hlit Hsoa). rewrite Forall_forall in Hlit.
      apply Hlit, Hin.
  - intros Hsoa (item & Hin & Hs).
    apply ensure_abort; [apply faultless_next_get, Hf|].
    fold record. unfold plan.
    rewrite Hst, Hd, (nonempty_true _ Hex).
    rewrite (changed_items_raise _ _ _ _ _ _ item Hsoa Hin Hs). reflexivity.
Qed.

End Merge.

(** C3, as stated, fails.  An SOA content with serial 0 that matches the
    stored content is still submitted next to it when the TTL differs,
    because the entries to add are found by comparing strings; a TTL that
    differs triggers no rewrite when no content is desired; an existing
    entry is not left untouched by a rewrite: a stored entry that is
    disabled comes back enabled; and an SOA content of fewer than three
    parts ends the invocation in an [IndexError]. *)
Lemma ensure_present_merge_adds_matching :
  matches_existing_content "SOA" "ns1 hostmaster 0 3600" ["ns1 hostmaster 99 3600"]
  = Some true
  ∧ @ensure ascii_lower last_seen_order
      (Sample.invocation "present" "SOA" false (Some ["ns1 hostmaster 0 3600"]) 60 false)
      Sample.client
      (Sample.remote [Sample.stored "SOA" ["ns1 hostmaster 99 3600"] 300])
    = (Return (true, Some (Found (Sample.stored "SOA"
                 ["ns1 hostmaster 99 3600"; "ns1 hostmaster 0 3600"] 60))),
       {| rrsets := [Sample.stored "SOA"
                       ["ns1 hostmaster 99 3600"; "ns1 hostmaster 0 3600"] 60];
          get_faults := []; patch_faults := [];
          log := [GET Sample.zone;
                  PATCH Sample.zone
                    [{| ch_name := "www.example.com."; ch_type := "SOA";
                        changetype := REPLACE;
                        ch_records :=
                          [{| rq_content := "ns1 hostmaster 99 3600";
                              rq_disabled := Some false; rq_set_ptr := false |};
                           {| rq_content := "ns1 hostmaster 0 3600";
                              rq_disabled := Some false; rq_set_ptr := false |}];
                        ch_ttl := Some 60 |}];
                  GET Sample.zone] |})
  ∧ @ensure ascii_lower last_seen_order
      (Sample.invocation "present" "A" false (Some []) 60 false)
      Sample.client
      (Sample.remote [Sample.stored "A" ["192.0.2.1"] 300])
    = (Return (false, Some (Found (Sample.stored "A" ["192.0.2.1"] 300))),
       {| rrsets := [Sample.stored "A" ["192.0.2.1"] 300];
          get_faults := []; patch_faults := []; log := [GET Sample.zone] |})
  ∧ (let held :=
       {| rr_name := "www.example.com."; rr_type := "A"; rr_ttl := Some 60;
          rr_records := [{| rec_content := "192.0.2.1"; rec_disabled := true |}];
          rr_comments := [] |} in
     let result :=
       @ensure ascii_lower last_seen_order
         (Sample.invocation "present" "A" false (Some ["192.0.2.2"]) 60 false)
         Sample.client (Sample.remote [held]) in
     result.1
     = Return (true,
               Some (Found
                 {| rr_name := "www.example.com."; rr_type := "A"; rr_ttl := Some 60;
                    rr_records := [{| rec_content := "192.0.2.1"; rec_disabled := false |};
                                   {| rec_content := "192.0.2.2"; rec_disabled := false |}];
                    rr_comments := [] |}))
     ∧ rrsets result.2
       = [{| rr_name := "www.example.com."; rr_type := "A"; rr_ttl := Some 60;
             rr_records := [{| rec_content := "192.0.2.1"; rec_disabled := false |};
                            {| rec_content := "192.0.2.2"; rec_disabled := false |}];
             rr_comments := [] |}])
  ∧ @ensure ascii_lower last_seen_order
      (Sample.invocation "present" "SOA" false (Some ["ns1"]) 60 false)
      Sample.client
      (Sample.remote [Sample.stored "SOA" ["ns1 hostmaster 99 3600"] 60])
    = (Raised IndexError,
       {| rrsets := [Sample.stored "SOA" ["ns1 hostmaster 99 3600"] 60];
          get_faults := []; patch_faults := []; log := [GET Sample.zone] |}).
Proof. cbv zeta. repeat split; vm_compute; reflexivity. Qed.

Lemma ensure_present_merge_witness :
  (let module := Sample.invocation "present" "A" false (Some ["192.0.2.2"]) 60 false in
   let w := Sample.remote [Sample.stored "A" ["192.0.2.1"] 60] in
   ∃ fresh,
     fresh ≡ₚ ["192.0.2.2"]
     ∧ (∀ item, item ∈ fresh ↔
          item ∈ ["192.0.2.2"]
          ∧ matches_existing_content "A" item ["192.0.2.1"] = Some false)
     ∧ @ensure ascii_lower last_seen_order module Sample.client w
       = (Return (true, Some (Found (written module ("192.0.2.1" :: fresh)))),
          after_get Sample.zone
            (after_patch Sample.zone (replacement module ("192.0.2.1" :: fresh))
               (after_get Sample.zone w))))
  ∧ (let module := Sample.invocation "present" "SOA" false (Some ["ns1"]) 60 false in
     let w := Sample.remote [Sample.stored "SOA" ["ns1 hostmaster 99 3600"] 60] in
     @ensure ascii_lower last_seen_order module Sample.client w
     = (Raised IndexError, after_get Sample.zone w)).
Proof.
  split.
  - refine (proj1 (@ensure_present_merge ascii_lower last_seen_order
              (Sample.invocation "present" "A" false (Some ["192.0.2.2"]) 60 false)
              Sample.client ["192.0.2.2"]
              (Sample.remote [Sample.stored "A" ["192.0.2.1"] 60])
              eq_refl eq_refl eq_refl (conj eq_refl eq_refl) _ eq_refl) _ _ _);
      try discriminate.
    + intros item Hin Hm. apply list_elem_of_singleton in Hin. subst item.
      vm_compute in Hm. discriminate.
    + split; [discriminate|]. right. exists "192.0.2.2". split; [left|reflexivity].
  - refine (proj2 (proj2 (proj2 (@ensure_present_merge ascii_lower last_seen_order
              (Sample.invocation "present" "SOA" false (Some ["ns1"]) 60 false)
              Sample.client ["ns1"]
              (Sample.remote [Sample.stored "SOA" ["ns1 hostmaster 99 3600"] 60])
              eq_refl eq_refl eq_refl (conj eq_refl eq_refl) _ eq_refl))) eq_refl _);
      try discriminate.
    exists "ns1". split; [left|reflexivity].
Defined.

(* ===================================================================== *)
(** ** The requests of an invocation *)
(* ===================================================================== *)

Section Requests.

Context {text : Py.Lower} {order : Py.SetOrder}.
Variables (module : AnsibleModule) (pdns_client : PowerDNSClient).
Let u := zone_url module pdns_client.

(** Carrying a plan out only adds requests to the log. *)
Lemma carry_out_log record p w :
  ∃ rest, log (carry_out module pdns_client record p w).2 = log w ++ rest.
Proof.
  destruct (check_mode module) eqn:Hc.
  - rewrite carry_out_check by exact Hc.
    destruct p; simpl; eauto using app_nil_r.
    all: exists []; symmetry; apply app_nil_r.
  - rewrite carry_out_run by exact Hc. cbv zeta.
    destruct p; simpl; try (exists []; symmetry; apply app_nil_r).
    + destruct (next_fault (patch_faults w)); simpl; [eauto|].
      rewrite <- app_assoc. eauto.
    + destruct (next_fault (patch_faults w)); simpl; eauto.
Qed.

(** Every invocation starts with the read of the zone. *)
Lemma ensure_log w :
  ∃ rest, log (ensure module pdns_client w).2 = log w ++ GET u :: rest.
Proof.
  rewrite ensure_run. destruct (next_fault (get_faults w)).
  - exists []. reflexivity.
  - destruct (carry_out_log (current module (rrsets w))
                (plan module (current module (rrsets w)))
                (after_get (zone_url module pdns_client) w)) as [rest Hr].
    exists rest. rewrite Hr. simpl. rewrite <- app_assoc. reflexivity.
Qed.

(** C5, amended: with [state=present], [exclusive=true] and an empty desired
    content list nothing is rejected.  The zone is read first in any case;
    when no recordset exists, a replacement with an empty list of records is
    sent and the result is changed; when one exists, the read is the only
    request and the result is unchanged. *)
Theorem ensure_present_exclusive_empty w :
  p_state (params module) = "present" →
  p_exclusive (params module) = true →
  p_content (params module) = Some [] →
  (∃ rest, log (ensure module pdns_client w).2 = log w ++ GET u :: rest)
  ∧ (check_mode module = false → faultless w →
     existing_of (current module (rrsets w)) = [] →
     ensure module pdns_client w
     = (Return (true, Some Default),
        after_get u (after_patch u (replacement module []) (after_get u w))))
  ∧ (next_fault (get_faults w) = None →
     existing_of (current module (rrsets w)) ≠ [] →
     ensure module pdns_client w
     = (Return (false, Some (current module (rrsets w))), after_get u w)).
Proof.
  intros Hst Hexcl Hcontent.
  assert (Hd : desired module = Some []).
  { unfold desired. rewrite Hcontent. reflexivity. }
  split; [apply ensure_log|split].
  - intros Hc Hf Hex.
    assert (Hplan : plan module (current module (rrsets w)) = Write "create" (Some [])).
    { unfold plan. rewrite Hst, Hex, Hd. reflexivity. }
    apply (ensure_write module pdns_client w _ _ Hc Hf Hplan).
  - intros Hr Hex. apply ensure_keep; [exact Hr|].
    rewrite (plan_present module _ [] Hst Hex Hd) by (intros _; constructor).
    cbv zeta. destruct (_ && _); reflexivity.
Qed.

(** The plan for [state=absent]. *)
Lemma plan_absent record :
  p_state (params module) = "absent" →
  plan module record =
  let existing_content := existing_of record in
  if nonempty existing_content && p_exclusive (params module) then Remove
  else if nonempty existing_content && negb (p_exclusive (params module)) then
    match desired module with
    | None => Abort TypeError
    | Some content =>
        let record_content :=
          List.filter (λ item, negb (Py.in_list item content)) existing_content in
        if negb (length record_content =? length existing_content)%nat
        then Write "delete" (Some record_content) else Keep
    end
  else Keep.
Proof. intros Hst. unfold plan. rewrite Hst. reflexivity. Qed.

(** What [state=absent], [exclusive=false] does against an existing
    recordset: the entries that are not desired are what remains; when some
    entry goes, the recordset is rewritten with the remainder, which may be
    the empty list; when none goes, the read is the only request. *)
Lemma ensure_absent_remainder content w :
  p_state (params module) = "absent" →
  p_exclusive (params module) = false →
  check_mode module = false →
  faultless w →
  existing_of (current module (rrsets w)) ≠ [] →
  desired module = Some content →
  let existing_content := existing_of (current module (rrsets w)) in
  let remainder :=
    List.filter (λ item, negb (Py.in_list item content)) existing_content in
  ensure module pdns_client w =
  if (length remainder =? length existing_content)%nat
  then (Return (false, Some (current module (rrsets w))), after_get u w)
  else (Return (true, Some (match remainder with
                            | [] => Default
                            | _ => Found (written module remainder)
                            end)),
        after_get u (after_patch u (replacement module remainder) (after_get u w))).
Proof.
  intros Hst Hexcl Hc Hf Hex Hd. cbv zeta.
  pose proof (plan_absent (current module (rrsets w)) Hst) as Hplan.
  cbv zeta in Hplan.
  rewrite Hexcl, (nonempty_true _ Hex), Hd in Hplan. cbn [andb negb] in Hplan.
  destruct (_ =? _)%nat; cbn [negb] in Hplan.
  - apply ensure_keep; [apply faultless_next_get, Hf|exact Hplan].
  - apply (ensure_write module pdns_client w _ _ Hc Hf Hplan).
Qed.

End Requests.

(** C5, as stated, fails: the request is not rejected.  Against a remote
    without the recordset the zone is read, a replacement with no records
    is sent, the zone is read again and the result is changed. *)
Lemma ensure_present_exclusive_empty_not_rejected :
  @ensure ascii_lower last_seen_order
    (Sample.invocation "present" "A" true (Some []) 60 false)
    Sample.client (Sample.remote [])
  = (Return (true, Some Default),
     {| rrsets := []; get_faults := []; patch_faults := [];
        log := [GET Sample.zone;
                PATCH Sample.zone
                  [{| ch_name := "www.example.com."; ch_type := "A";
                      changetype := REPLACE; ch_records := []; ch_ttl := Some 60 |}];
                GET Sample.zone] |}).
Proof. vm_compute. reflexivity. Qed.

Lemma ensure_present_exclusive_empty_witness :
  let module := Sample.invocation "present" "A" true (Some []) 60 false in
  let w := Sample.remote [Sample.stored "A" ["192.0.2.1"] 60] in
  @ensure ascii_lower last_seen_order module Sample.client w
  = (Return (false, Some (current module (rrsets w))), after_get Sample.zone w).
Proof.
  refine (proj2 (proj2 (@ensure_present_exclusive_empty ascii_lower last_seen_order
            (Sample.invocation "present" "A" true (Some []) 60 false)
            Sample.client (Sample.remote [Sample.stored "A" ["192.0.2.1"] 60])
            eq_refl eq_refl eq_refl)) eq_refl _).
  discriminate.
Defined.

(** C4: the code does not do what the claim says when every existing entry
    is to be removed.  The replacement is sent with an empty list of
    records and the zone is read again; the deletion that follows in the
    source is never reached, because the block before it always returns. *)
Theorem ensure_absent_last_entry_rewrites_empty :
  @ensure ascii_lower last_seen_order
    (Sample.invocation "absent" "A" false (Some ["192.0.2.1"]) 60 false)
    Sample.client (Sample.remote [Sample.stored "A" ["192.0.2.1"] 60])
  = (Return (true, Some Default),
     {| rrsets := []; get_faults := []; patch_faults := [];
        log := [GET Sample.zone;
                PATCH Sample.zone
                  [{| ch_name := "www.example.com."; ch_type := "A";
                      changetype := REPLACE; ch_records := []; ch_ttl := Some 60 |}];
                GET Sample.zone] |}).
Proof. vm_compute. reflexivity. Qed.

(* ===================================================================== *)
(** ** Check mode *)
(* ===================================================================== *)

Section CheckMode.

Context {text : Py.Lower} {order : Py.SetOrder}.
Variables (module : AnsibleModule) (pdns_client : PowerDNSClient).
Let u := zone_url module pdns_client.

(** The loop raises nothing but the [IndexError] of [serial]. *)
Lemma changed_items_raise_inv rtype existing_content record_ttl ttl content acc e :
  changed_items rtype existing_content record_ttl ttl content acc = Raise e →
  e = IndexError.
Proof.
  revert acc. induction content as [|item content IH]; intros acc; simpl; [discriminate|].
  destruct (matches_existing_content _ _ _); [apply IH|]. intros [= <-]. reflexivity.
Qed.

(** No plan aborts with an error of the remote. *)
Lemma plan_abort_local record e :
  plan module record = Abort e → e = IndexError ∨ e = TypeError.
Proof.
  unfold plan.
  repeat match goal with
         | |- context [changed_items ?a ?b ?c ?d ?x ?y] =>
             destruct (changed_items a b c d x y) eqn:?
         | |- context [if ?b then _ else _] => destruct b
         | |- context [match desired module with _ => _ end] =>
             destruct (desired module)
         end; try discriminate.
  all: intros [= <-]; eauto using changed_items_raise_inv.
Qed.

(** An invocation in check mode. *)
Lemma ensure_check w :
  check_mode module = true →
  ensure module pdns_client w =
  match next_fault (get_faults w) with
  | Some f => (Raised (read_exception f), after_get u w)
  | None =>
      match plan module (current module (rrsets w)) with
      | Keep => (Return (false, Some (current module (rrsets w))), after_get u w)
      | Write action _ =>
          (match next_fault (tail (get_faults w)) with
           | Some f => reread_fails action (name_of module) f
           | None => Return (true, Some (current module (rrsets w)))
           end, after_get u (after_get u w))
      | Remove => (Return (true, None), after_get u w)
      | Abort e => (Raised e, after_get u w)
      end
  end.
Proof.
  intros Hc. rewrite ensure_run.
  destruct (next_fault (get_faults w)); [reflexivity|].
  rewrite carry_out_check by exact Hc.
  destruct (plan module (current module (rrsets w))); reflexivity.
Qed.

(** C9: in check mode the zone is read first and every further request is
    a read; the rrsets of the remote stay as they are; the outcome does not
    depend on how writes would fail; whenever the same invocation outside
    check mode returns, the invocation in check mode returns the same
    changed flag; and an error of the remote in the outcome is the error of
    the initial read or of the re-read. *)
Theorem ensure_check_mode w :
  check_mode module = true →
  (∃ reads, log (ensure module pdns_client w).2 = log w ++ GET u :: reads
            ∧ Forall (λ c, is_read c = true) reads)
  ∧ rrsets (ensure module pdns_client w).2 = rrsets w
  ∧ (∀ faults, (ensure module pdns_client (with_patch_faults faults w)).1
               = (ensure module pdns_client w).1)
  ∧ (∀ changed record w',
       ensure (set_check_mode false module) pdns_client w
       = (Return (changed, record), w') →
       ∃ record', (ensure module pdns_client w).1 = Return (changed, record'))
  ∧ (∀ e, (ensure module pdns_client w).1 = Raised (Upstream e) →
          next_fault (get_faults w) = Some (ReadError e))
  ∧ (∀ msg, (ensure module pdns_client w).1 = Failed msg →
            next_fault (get_faults w) = None
            ∧ ∃ e, next_fault (tail (get_faults w)) = Some (ReadError e)
                   ∧ fm_code msg = status_code e ∧ fm_err msg = message e).
Proof.
  intros Hc. split; [|split; [|split; [|split; [|split]]]].
  - rewrite ensure_check by exact Hc.
    destruct (next_fault (get_faults w)); [exists []; split; [reflexivity|constructor]|].
    destruct (plan module (current module (rrsets w))); simpl.
    1,3,4: exists []; split; [reflexivity|constructor].
    exists [GET u]. rewrite <- app_assoc. split; [reflexivity|].
    repeat constructor.
  - rewrite ensure_check by exact Hc.
    destruct (next_fault (get_faults w)); [reflexivity|].
    destruct (plan module (current module (rrsets w))); reflexivity.
  - intros faults. rewrite !ensure_check by exact Hc. simpl.
    destruct (next_fault (get_faults w)); [reflexivity|].
    destruct (plan module (current module (rrsets w))); reflexivity.
  - intros changed record w'. rewrite ensure_run, ensure_check by exact Hc.
    destruct (next_fault (get_faults w)); [discriminate|].
    rewrite carry_out_run by reflexivity.
    rewrite plan_set_check_mode.
    change (current (set_check_mode false module)) with (current module).
    destruct (plan module (current module (rrsets w))) as [|action content| |e]; simpl.
    + intros [= <- _ _]. eauto.
    + destruct (next_fault (patch_faults w)); [discriminate|]. simpl.
      destruct (next_fault (tail (get_faults w))) as [[]|]; try discriminate.
      intros [= <- _ _]. eauto.
    + destruct (next_fault (patch_faults w)); [discriminate|].
      intros [= <- _ _]. eauto.
    + discriminate.
  - intros e. rewrite ensure_check by exact Hc.
    destruct (next_fault (get_faults w)) as [[e'| |]|]; simpl;
      try discriminate; [intros [= ->]; reflexivity|].
    destruct (plan module (current module (rrsets w))) as [|action content| |e'] eqn:Hp;
      simpl; try discriminate.
    + destruct (next_fault (tail (get_faults w))) as [[]|]; discriminate.
    + intros [= ->]. apply plan_abort_local in Hp as [Hp|Hp]; discriminate.
  - intros msg. rewrite ensure_check by exact Hc.
    destruct (next_fault (get_faults w)) as [e'|]; simpl; [discriminate|].
    destruct (plan module (current module (rrsets w))) as [|action content| |e'];
      simpl; try discriminate.
    destruct (next_fault (tail (get_faults w))) as [[e| |]|]; try discriminate.
    intros [= <-]. split; [reflexivity|]. exists e. repeat split.
Qed.

End CheckMode.

Lemma ensure_check_mode_witness :
  let module := Sample.invocation "present" "A" true (Some ["192.0.2.2"]) 60 true in
  let w := Sample.remote [Sample.stored "A" ["192.0.2.1"] 60] in
  (∃ reads, log (@ensure ascii_lower last_seen_order module Sample.client w).2
            = log w ++ GET Sample.zone :: reads
            ∧ Forall (λ c, is_read c = true) reads)
  ∧ rrsets (@ensure ascii_lower last_seen_order module Sample.client w).2 = rrsets w.
Proof.
  pose proof (@ensure_check_mode ascii_lower last_seen_order
                (Sample.invocation "present" "A" true (Some ["192.0.2.2"]) 60 true)
                Sample.client (Sample.remote [Sample.stored "A" ["192.0.2.1"] 60])
                eq_refl) as (Hlog & Hrrsets & _).
  split; [exact Hlog|exact Hrrsets].
Defined.

(* ===================================================================== *)
(** ** Running [ensure] again *)
(* ===================================================================== *)

Section Twice.

Context {text : Py.Lower} {order : Py.SetOrder}.
Variables (module : AnsibleModule) (pdns_client : PowerDNSClient).
Let u := zone_url module pdns_client.

Lemma existing_of_reread payload : existing_of (reread module payload) = payload.
Proof. destruct payload; [reflexivity|apply existing_of_written]. Qed.

(** Nothing is out of date against a record that holds every desired
    entry with the desired TTL. *)
Lemma up_to_date content existing_content :
  splittable (p_type (params module)) content →
  (∀ x, x ∈ content → x ∈ existing_content) →
  List.filter (out_of_date (p_type (params module)) existing_content
                 (Some (p_ttl (params module))) (p_ttl (params module))) content = [].
Proof.
  intros Hs Hin. apply filter_bool_nil. intros x Hx. unfold out_of_date.
  rewrite matches_member.
  - simpl. rewrite bool_decide_eq_true_2; reflexivity.
  - intros Hsoa. specialize (Hs Hsoa). rewrite Forall_forall in Hs. apply Hs, Hx.
  - apply Hin, Hx.
Qed.

(** Against a written record that holds every desired entry, and no more
    distinct entries than desired when exclusive, nothing is to do. *)
Lemma plan_present_settled content payload :
  p_state (params module) = "present" →
  desired module = Some content →
  splittable (p_type (params module)) content →
  payload ≠ [] →
  (∀ x, x ∈ content → x ∈ payload) →
  (p_exclusive (params module) = true → ∀ x, x ∈ payload → x ∈ content) →
  plan module (Found (written module payload)) = Keep.
Proof.
  intros Hst Hd Hs Hne Hin Hexcl.
  rewrite (plan_present module _ content Hst) by (rewrite ?existing_of_written; done).
  cbv zeta. rewrite existing_of_written, ttl_of_written, (up_to_date _ _ Hs Hin).
  destruct (p_exclusive (params module)); [|rewrite andb_false_r; reflexivity].
  assert (Hlen : (Py.len_set content <? Py.len_set payload)%nat = false).
  { apply Nat.ltb_ge. rewrite (len_set_same payload content); [done|].
    intros x. split; [apply Hexcl; reflexivity|apply Hin]. }
  rewrite Hlen. reflexivity.
Qed.

Lemma plan_default_keep :
  p_state (params module) ≠ "present" → plan module Default = Keep.
Proof.
  intros Hst. unfold plan. apply String.eqb_neq in Hst. rewrite Hst.
  destruct (String.eqb _ "absent"); reflexivity.
Qed.

Lemma filter_bool_idemp (f : string → bool) l :
  List.filter f (List.filter f l) = List.filter f l.
Proof.
  apply filter_bool_all. intros x Hx. apply elem_of_filter_bool in Hx. tauto.
Qed.

(** After the write that a plan asks for, the plan is to keep the record. *)
Lemma plan_after_write record action content :
  (p_state (params module) = "present" →
   ∃ desired_content, desired module = Some desired_content
     ∧ desired_content ≠ []
     ∧ splittable (p_type (params module)) desired_content) →
  plan module record = Write action content →
  plan module (reread module (default [] content)) = Keep.
Proof.
  intros Hpresent Hplan.
  destruct (String.eqb (p_state (params module)) "present") eqn:Hst.
  - apply String.eqb_eq in Hst.
    destruct (Hpresent Hst) as (c & Hd & Hne & Hs).
    destruct (decide (existing_of record = [])) as [Hex|Hex].
    + unfold plan in Hplan. rewrite Hst, Hex, Hd in Hplan. simpl in Hplan.
      injection Hplan as _ <-. simpl.
      destruct c as [|x c]; [done|]. apply (plan_present_settled (x :: c)); done.
    + rewrite (plan_present module record c Hst Hex Hd Hs) in Hplan.
      cbv zeta in Hplan.
      set (record_content :=
             if (Py.len_set c <? Py.len_set (existing_of record))%nat
                && p_exclusive (params module)
             then c
             else List.filter _ c) in Hplan.
      assert (Hsub : ∀ x, x ∈ record_content → x ∈ c).
      { intros x. unfold record_content. destruct (_ && _); [done|].
        intros Hx. apply elem_of_filter_bool in Hx. tauto. }
      destruct (0 <? length record_content)%nat eqn:Hlen; [|discriminate].
      assert (Hrc : record_content ≠ []).
      { intros Hnil. rewrite Hnil in Hlen. discriminate. }
      injection Hplan as _ <-. cbn [default from_option id].
      destruct (p_exclusive (params module)) eqn:Hexcl; cbn [negb].
      * assert (Hset : Py.set (record_content ++ c) ≠ []).
        { apply set_nonempty. intros Happ. apply app_eq_nil in Happ as [Happ _]. done. }
        unfold reread. destruct (Py.set (record_content ++ c)) eqn:Heq; [done|].
        rewrite <- Heq. apply (plan_present_settled c); try done.
        -- rewrite Heq. discriminate.
        -- intros x Hx. apply set_elem, elem_of_app. right. exact Hx.
        -- intros _ x Hx. apply set_elem, elem_of_app in Hx as [Hx|Hx];
             [apply Hsub, Hx|exact Hx].
      * unfold reread.
        destruct (existing_of record ++ _) eqn:Heq;
          [apply app_eq_nil in Heq as [Heq _]; done|].
        rewrite <- Heq. apply (plan_present_settled c); try done.
        -- rewrite Heq. discriminate.
        -- intros x Hx. apply elem_of_app.
           destruct (decide (x ∈ existing_of record)) as [Hxe|Hxe]; [left; exact Hxe|].
           right. apply elem_of_filter_bool. split.
           ++ apply set_elem, elem_of_app. right. exact Hx.
           ++ apply negb_true_iff, in_list_false, Hxe.
        -- intros Ht. congruence.
  - destruct (String.eqb (p_state (params module)) "absent") eqn:Habs.
    + apply String.eqb_eq in Habs. apply String.eqb_neq in Hst.
      rewrite (plan_absent module record Habs) in Hplan. cbv zeta in Hplan.
      destruct (nonempty (existing_of record)); [|discriminate].
      destruct (p_exclusive (params module)) eqn:Hexcl; [discriminate|].
      cbn [andb negb] in Hplan.
      destruct (desired module) as [c|] eqn:Hd; [|discriminate].
      destruct (negb _); [|discriminate].
      injection Hplan as _ <-. cbn [default from_option id].
      set (remainder := List.filter _ (existing_of record)).
      unfold reread. destruct remainder as [|x remainder'] eqn:Hrem;
        [apply plan_default_keep, Hst|].
      rewrite <- Hrem.
      rewrite (plan_absent module _ Habs). cbv zeta.
      rewrite existing_of_written, Hexcl, Hd. cbn [andb negb].
      unfold remainder. rewrite filter_bool_idemp, Nat.eqb_refl.
      destruct (nonempty _); reflexivity.
    + unfold plan in Hplan. rewrite Hst, Habs in Hplan. discriminate.
Qed.

(** A plan to remove is made for [state=absent] only. *)
Lemma plan_remove_absent record :
  plan module record = Remove → p_state (params module) ≠ "present".
Proof.
  intros Hplan Hst. unfold plan in Hplan. rewrite Hst in Hplan. simpl in Hplan.
  repeat match type of Hplan with
         | context [changed_items ?a ?b ?c ?d ?x ?y] =>
             destruct (changed_items a b c d x y)
         | context [if ?b then _ else _] => destruct b
         | context [match desired module with _ => _ end] => destruct (desired module)
         end; discriminate.
Qed.

(** C1, amended: outside check mode, when an invocation returns and, for
    [state=present], its desired content is not empty and its SOA contents
    have three parts, the same invocation against the remote as the first
    left it, whose read succeeds, returns unchanged. *)
Theorem ensure_twice_unchanged w w' changed record :
  check_mode module = false →
  (p_state (params module) = "present" →
   ∃ content, desired module = Some content
     ∧ content ≠ []
     ∧ splittable (p_type (params module)) content) →
  ensure module pdns_client w = (Return (changed, record), w') →
  next_fault (get_faults w') = None →
  ∃ record', (ensure module pdns_client w').1 = Return (false, record').
Proof.
  intros Hc Hpresent Hrun Hread.
  assert (Hkeep : plan module (current module (rrsets w')) = Keep).
  { rewrite ensure_run in Hrun.
    destruct (next_fault (get_faults w)); [discriminate|].
    rewrite carry_out_run in Hrun by exact Hc. cbv zeta in Hrun.
    destruct (plan module (current module (rrsets w))) as [|action content| |e] eqn:Hplan.
    - injection Hrun as _ _ <-. exact Hplan.
    - destruct (next_fault (patch_faults _)); [discriminate|].
      injection Hrun as _ <-.
      change (rrsets (after_get ?a ?b)) with (rrsets b).
      rewrite current_after_replacement.
      apply (plan_after_write _ _ _ Hpresent Hplan).
    - destruct (next_fault (patch_faults _)); [discriminate|].
      injection Hrun as _ _ <-. rewrite current_after_deletion.
      apply plan_default_keep, (plan_remove_absent _ Hplan).
    - discriminate. }
  rewrite (ensure_keep module pdns_client w' Hread Hkeep). eauto.
Qed.

End Twice.

(** C1, as stated, fails.  In check mode the first invocation writes
    nothing, so the second, with the same inputs, reports the same change
    again.  And with [state=present] and an empty desired content against a
    remote without the recordset, the first invocation sends a replacement
    without records and returns changed, and so does the second against
    the remote as the first left it. *)
Lemma ensure_twice_changed_again :
  let checking := Sample.invocation "present" "A" true (Some ["192.0.2.1"]) 60 true in
  let module := Sample.invocation "present" "A" false (Some []) 60 false in
  let w0 := (@ensure ascii_lower last_seen_order checking Sample.client (Sample.remote [])).2 in
  let w1 := (@ensure ascii_lower last_seen_order module Sample.client (Sample.remote [])).2 in
  (@ensure ascii_lower last_seen_order checking Sample.client (Sample.remote [])).1
  = Return (true, Some Default)
  ∧ (@ensure ascii_lower last_seen_order checking Sample.client w0).1 = Return (true, Some Default)
  ∧ @ensure ascii_lower last_seen_order module Sample.client (Sample.remote [])
    = (Return (true, Some Default),
       {| rrsets := []; get_faults := []; patch_faults := [];
          log := [GET Sample.zone; PATCH Sample.zone (replacement module []);
                  GET Sample.zone] |})
  ∧ (@ensure ascii_lower last_seen_order module Sample.client w1).1 = Return (true, Some Default).
Proof. repeat split; vm_compute; reflexivity. Qed.

Lemma ensure_twice_unchanged_witness :
  let module := Sample.invocation "present" "A" true (Some ["192.0.2.1"]) 60 false in
  let w' := (@ensure ascii_lower last_seen_order module Sample.client (Sample.remote [])).2 in
  ∃ record', (@ensure ascii_lower last_seen_order module Sample.client w').1 = Return (false, record').
Proof.
  refine (@ensure_twice_unchanged ascii_lower last_seen_order
            (Sample.invocation "present" "A" true (Some ["192.0.2.1"]) 60 false)
            Sample.client (Sample.remote [])
            (@ensure ascii_lower last_seen_order
               (Sample.invocation "present" "A" true (Some ["192.0.2.1"]) 60 false)
               Sample.client (Sample.remote [])).2
            true
            (Some (Found (written
                     (Sample.invocation "present" "A" true (Some ["192.0.2.1"]) 60 false)
                     ["192.0.2.1"])))
            eq_refl _ _ eq_refl).
  - intros _. exists ["192.0.2.1"]. split; [reflexivity|]. split; discriminate.
  - vm_compute. reflexivity.
Defined.


(* ===================================================================== *)
(** ** Splitting and joining; the serial of an SOA content *)
(* ===================================================================== *)

Section Parts.

Implicit Types s : string.
Implicit Types sep : ascii.

Lemma split_cons s sep : ∃ p ps, Py.split s sep = p :: ps.
Proof.
  induction s as [|a s (p & ps & IH)]; simpl; [eauto|].
  destruct (Ascii.eqb a sep); [eauto|]. rewrite IH. eauto.
Qed.

(** Joining the parts with the separator gives the string back. *)
Lemma join_split s sep : Py.join (String sep "") (Py.split s sep) = s.
Proof.
  induction s as [|a s IH]; simpl; [reflexivity|].
  destruct (split_cons s sep) as (p & ps & Hs). rewrite Hs in *.
  destruct (Ascii.eqb a sep) eqn:Ha.
  - apply Ascii.eqb_eq in Ha. subst a.
    change (Py.join (String sep "") ("" :: p :: ps))
      with (String sep (Py.join (String sep "") (p :: ps))).
    rewrite IH. reflexivity.
  - destruct ps as [|q ps]; simpl in *; rewrite <- IH; reflexivity.
Qed.

(** No part holds the separator. *)
Lemma split_parts_fields s sep :
  Forall (λ p, Py.has_char p sep = false) (Py.split s sep).
Proof.
  induction s as [|a s IH]; simpl; [repeat constructor|].
  destruct (Ascii.eqb a sep) eqn:Ha; [constructor; [reflexivity|exact IH]|].
  destruct (Py.split s sep) as [|p ps]; [repeat constructor; simpl; rewrite Ha; done|].
  inversion IH as [|? ? Hp Hps]; subst. constructor; [|exact Hps].
  simpl. rewrite Ha, Hp. reflexivity.
Qed.

(** There is one part more than there are separators. *)
Lemma length_split s sep : length (Py.split s sep) = S (count_char s sep).
Proof.
  induction s as [|a s IH]; simpl; [reflexivity|].
  destruct (Ascii.eqb a sep); simpl; [rewrite IH; reflexivity|].
  destruct (Py.split s sep); simpl in *; congruence.
Qed.

Lemma split_join_fields (parts : list string) sep :
  parts ≠ [] → Forall (λ p, Py.has_char p sep = false) parts →
  Py.split (Py.join (String sep "") parts) sep = parts.
Proof.
  induction parts as [|p [|q ps] IH]; [done| |]; intros _ Hf.
  - apply split_field. apply Forall_inv in Hf. exact Hf.
  - change (Py.join (String sep "") (p :: q :: ps))
      with (p +:+ String sep (Py.join (String sep "") (q :: ps))).
    rewrite split_app_sep by (apply Forall_inv in Hf; exact Hf).
    rewrite IH; [reflexivity|done|]. apply Forall_inv_tail in Hf. exact Hf.
Qed.

(** The parts of a content without its serial. *)
Lemma split_ignore_serial content :
  Py.split (ignore_serial content) " "
  = take 2 (Py.split content " ") ++ drop 3 (Py.split content " ").
Proof.
  unfold ignore_serial. cbv zeta. apply split_join_fields.
  - destruct (split_cons content " ") as (p & ps & ->). discriminate.
  - apply Forall_app. split; [apply Forall_take|apply Forall_drop];
      apply split_parts_fields.
Qed.

(** X1: [serial] finds a third part, and so raises no [IndexError], exactly
    when the content holds at least two spaces. *)
Theorem serial_defined_iff content :
  is_Some (serial content) ↔ (2 ≤ count_char content " ")%nat.
Proof.
  unfold serial. rewrite lookup_lt_is_Some, length_split. lia.
Qed.

(** X2: [ignore_serial] never fails; a content in which [serial] finds no
    third part is returned as it is. *)
Theorem ignore_serial_short content :
  serial content = None → ignore_serial content = content.
Proof.
  unfold serial, ignore_serial. intros Hs. cbv zeta.
  apply lookup_ge_None_1 in Hs.
  rewrite take_ge, drop_ge, app_nil_r by lia. apply join_split.
Qed.

Lemma ignore_serial_short_witness : ignore_serial "ns1 hostmaster" = "ns1 hostmaster".
Proof. apply ignore_serial_short. reflexivity. Defined.

(** X3: when the serial of a content is [s], the content is its first two
    parts, [s] and the remaining parts joined by single spaces;
    [ignore_serial] is the same without [s], one part shorter. *)
Theorem ignore_serial_removes_serial content s :
  serial content = Some s →
  content = Py.join " " (take 2 (Py.split content " ") ++ s :: drop 3 (Py.split content " "))
  ∧ ignore_serial content
    = Py.join " " (take 2 (Py.split content " ") ++ drop 3 (Py.split content " "))
  ∧ S (length (Py.split (ignore_serial content) " ")) = length (Py.split content " ").
Proof.
  unfold serial. intros Hs. split; [|split].
  - rewrite (take_drop_middle _ _ _ Hs). symmetry. apply join_split.
  - reflexivity.
  - rewrite split_ignore_serial.
    rewrite <- (take_drop_middle _ _ _ Hs) at 3.
    rewrite !length_app. simpl. lia.
Qed.

Lemma ignore_serial_removes_serial_witness :
  ignore_serial "ns1 hostmaster 2024010199 3600" = "ns1 hostmaster 3600".
Proof.
  exact (proj1 (proj2 (ignore_serial_removes_serial
                         "ns1 hostmaster 2024010199 3600" "2024010199" eq_refl))).
Defined.

(** X4: the serial and the content without it determine the content: two
    contents with the same serial that agree once the serial is ignored
    are the same string. *)
Theorem serial_ignore_serial_injective content1 content2 s :
  serial content1 = Some s → serial content2 = Some s →
  ignore_serial content1 = ignore_serial content2 →
  content1 = content2.
Proof.
  intros H1 H2 Heq.
  assert (Hparts : take 2 (Py.split content1 " ") ++ drop 3 (Py.split content1 " ")
                   = take 2 (Py.split content2 " ") ++ drop 3 (Py.split content2 " ")).
  { rewrite <- !split_ignore_serial, Heq. reflexivity. }
  unfold serial in H1, H2.
  apply app_inj_1 in Hparts as [Ht Hd].
  - rewrite <- (join_split content1 " "), <- (join_split content2 " ").
    rewrite <- (take_drop_middle _ _ _ H1), <- (take_drop_middle _ _ _ H2).
    rewrite Ht, Hd. reflexivity.
  - apply lookup_lt_Some in H1, H2. rewrite !length_take. lia.
Qed.

Lemma serial_ignore_serial_injective_witness :
  "ns1 hostmaster 7 3600" = "ns1 hostmaster 7 3600".
Proof.
  exact (serial_ignore_serial_injective "ns1 hostmaster 7 3600" "ns1 hostmaster 7 3600"
           "7" eq_refl eq_refl eq_refl).
Defined.

End Parts.

(* ===================================================================== *)
(** ** The comparator and the serial *)
(* ===================================================================== *)

Section Serial.

Implicit Types rtype content stored : string.
Implicit Types existing_content : list string.

(** Two contents are the same string once the serial is ignored exactly
    when they have the same parts but for the third. *)
Lemma ignore_serial_eq_iff content stored :
  ignore_serial stored = ignore_serial content
  ↔ parts_without_serial stored = parts_without_serial content.
Proof.
  unfold parts_without_serial. cbv zeta. rewrite <- !split_ignore_serial.
  split; [intros ->; reflexivity|].
  intros H. rewrite <- (join_split (ignore_serial stored) " "), H. apply join_split.
Qed.

(** C6, amended: for an SOA content whose third part, splitting at single
    spaces, is ["0"], the comparison answers, and it answers [True] exactly
    when some existing entry has the same parts as the content but for the
    third, hence [True] against a stored entry that differs in the serial
    only; for an SOA content with another third part, and for every other
    type, the answer is whether the content itself is among the existing
    entries; for an SOA content with fewer than three parts the comparison
    ends in an [IndexError]. *)
Theorem matches_existing_content_soa_serial rtype content existing_content :
  (rtype = "SOA" → serial content = Some "0" →
     ∃ answer,
       matches_existing_content rtype content existing_content = Some answer
       ∧ (answer = true
          ↔ ∃ stored, stored ∈ existing_content
              ∧ parts_without_serial stored = parts_without_serial content))
  ∧ (rtype = "SOA" →
     ∀ stored, stored ∈ existing_content → differ_in_serial_only content stored →
     matches_existing_content rtype content existing_content = Some true)
  ∧ (rtype = "SOA" → ∀ s, serial content = Some s → s ≠ "0" →
     matches_existing_content rtype content existing_content
     = Some (bool_decide (content ∈ existing_content)))
  ∧ (rtype ≠ "SOA" →
     matches_existing_content rtype content existing_content
     = Some (bool_decide (content ∈ existing_content)))
  ∧ (rtype = "SOA" → serial content = None →
     matches_existing_content rtype content existing_content = None).
Proof.
  unfold matches_existing_content.
  split; [|split; [|split; [|split]]].
  - intros -> Hs. rewrite Hs. simpl. eexists. split; [reflexivity|].
    rewrite in_list_spec, list_elem_of_fmap.
    split; intros (stored & H1 & H2).
    + exists stored. split; [exact H2|]. apply ignore_serial_eq_iff. symmetry. exact H1.
    + exists stored. split; [|exact H1]. symmetry. apply ignore_serial_eq_iff, H2.
  - intros -> stored Hin [Hs Heq]%differ_in_serial_only_ignore.
    rewrite Hs. simpl. f_equal. apply in_list_true.
    rewrite Heq. apply list_elem_of_fmap_2, Hin.
  - intros -> s Hs Hne. rewrite Hs. simpl.
    apply String.eqb_neq in Hne. rewrite Hne. reflexivity.
  - intros Hne. apply String.eqb_neq in Hne. rewrite Hne. reflexivity.
  - intros -> Hs. rewrite Hs. reflexivity.
Qed.

End Serial.

Lemma matches_existing_content_soa_serial_witness :
  matches_existing_content "SOA" "ns1 hostmaster 0 3600 600 86400 60"
    ["ns1 hostmaster 2024010199 3600 600 86400 60"] = Some true
  ∧ (∃ answer,
       matches_existing_content "SOA" "ns1 hostmaster 0 3600 600 86400 60"
         ["ns1 hostmaster 2024010199 3600 600 86400 61"; "ns2 hostmaster 0 3600 600 86400 60"]
       = Some answer
       ∧ (answer = true
          ↔ ∃ stored,
              stored ∈ ["ns1 hostmaster 2024010199 3600 600 86400 61";
                        "ns2 hostmaster 0 3600 600 86400 60"]
              ∧ parts_without_serial stored
                = parts_without_serial "ns1 hostmaster 0 3600 600 86400 60"))
  ∧ matches_existing_content "SOA" "ns1 hostmaster 7 3600 600 86400 60"
    ["ns1 hostmaster 2024010199 3600 600 86400 60"] = Some false
  ∧ matches_existing_content "A" "192.0.2.1" ["192.0.2.1"] = Some true
  ∧ matches_existing_content "SOA" "ns1 hostmaster" ["ns1 hostmaster"] = None.
Proof.
  split; [|split; [|split; [|split]]].
  - refine (proj1 (proj2 (matches_existing_content_soa_serial "SOA"
                            "ns1 hostmaster 0 3600 600 86400 60" _))
              eq_refl "ns1 hostmaster 2024010199 3600 600 86400 60" _ _).
    + apply list_elem_of_singleton. reflexivity.
    + exists "ns1", "hostmaster", "2024010199", ["3600"; "600"; "86400"; "60"].
      split; [|split; reflexivity].
      repeat constructor.
  - exact (proj1 (matches_existing_content_soa_serial "SOA"
                    "ns1 hostmaster 0 3600 600 86400 60" _) eq_refl eq_refl).
  - refine (proj1 (proj2 (proj2 (matches_existing_content_soa_serial "SOA"
                                   "ns1 hostmaster 7 3600 600 86400 60" _)))
              eq_refl "7" eq_refl _).
    discriminate.
  - refine (proj1 (proj2 (proj2 (proj2 (matches_existing_content_soa_serial "A" _ _)))) _).
    discriminate.
  - exact (proj2 (proj2 (proj2 (proj2 (matches_existing_content_soa_serial "SOA"
                                          "ns1 hostmaster" _)))) eq_refl eq_refl).
Defined.

(** C6, as stated, fails: the serial field of the specification is the
    third whitespace-separated field, but [serial] takes the third part
    when splitting at single spaces.  With two spaces after the first
    field the third part is the second field, so a content with serial
    field ["0"] is compared as it is and does not match the stored content
    that differs in the serial only; with tabs between the fields there is
    no third part and the comparison ends in an [IndexError]. *)
Lemma matches_existing_content_whitespace_serial :
  (let content := "ns1  hostmaster 0 3600" in
   let stored := "ns1  hostmaster 99 3600" in
   soaSerial_spec content = Some "0"
   ∧ soaWithoutSerial_spec stored = soaWithoutSerial_spec content
   ∧ serial content = Some "hostmaster"
   ∧ matches_existing_content "SOA" content [stored] = Some false)
  ∧ (let content := "ns1" +:+ tab +:+ "hostmaster" +:+ tab +:+ "0" +:+ tab +:+ "3600" in
     let stored := "ns1" +:+ tab +:+ "hostmaster" +:+ tab +:+ "99" +:+ tab +:+ "3600" in
     soaSerial_spec content = Some "0"
     ∧ soaWithoutSerial_spec stored = soaWithoutSerial_spec content
     ∧ serial content = None
     ∧ matches_existing_content "SOA" content [stored] = None).
Proof. cbv zeta. repeat split. Qed.

(* ===================================================================== *)
(** ** The comparator and the existing content *)
(* ===================================================================== *)

Section Existing.

Implicit Types rtype content : string.
Implicit Types existing : list string.

Lemma in_list_same_elements x (l k : list string) :
  (∀ y, y ∈ l ↔ y ∈ k) → Py.in_list x l = Py.in_list x k.
Proof. intros H. unfold Py.in_list. apply bool_decide_ext, H. Qed.

Lemma fmap_same_elements (f : string → string) (l k : list string) :
  (∀ y, y ∈ l ↔ y ∈ k) → ∀ y, y ∈ f <$> l ↔ y ∈ f <$> k.
Proof.
  intros H y. rewrite !list_elem_of_fmap.
  split; intros (x & -> & Hx); exists x; (split; [reflexivity|apply H, Hx]).
Qed.

(** X5: the comparison ends in the [IndexError] of [serial] exactly when
    the type is SOA and the desired content holds fewer than two spaces,
    whatever the existing content is. *)
Theorem matches_existing_content_raises_iff rtype content existing :
  matches_existing_content rtype content existing = None
  ↔ rtype = "SOA" ∧ (count_char content " " < 2)%nat.
Proof.
  unfold matches_existing_content.
  destruct (String.eqb rtype "SOA") eqn:Hsoa.
  - apply String.eqb_eq in Hsoa. subst rtype.
    destruct (serial content) as [s|] eqn:Hs; simpl.
    + assert (Hc : (2 ≤ count_char content " ")%nat).
      { unfold serial in Hs. apply lookup_lt_Some in Hs.
        rewrite length_split in Hs. lia. }
      destruct (String.eqb s "0"); split; try discriminate; intros [_ H]; lia.
    + split; [|reflexivity]. intros _. split; [reflexivity|].
      unfold serial in Hs. apply lookup_ge_None_1 in Hs.
      rewrite length_split in Hs. lia.
  - apply String.eqb_neq in Hsoa. split; [discriminate|]. intros [H _]. done.
Qed.

(** X6: the comparison looks at the existing content as a set: neither the
    order of the existing entries nor their repetition changes the answer. *)
Theorem matches_existing_content_same_elements rtype content existing1 existing2 :
  (∀ x, x ∈ existing1 ↔ x ∈ existing2) →
  matches_existing_content rtype content existing1
  = matches_existing_content rtype content existing2.
Proof.
  intros H. unfold matches_existing_content.
  destruct (String.eqb rtype "SOA"); [|f_equal; apply in_list_same_elements, H].
  destruct (serial content) as [s|]; simpl; [|reflexivity].
  destruct (String.eqb s "0"); f_equal; apply in_list_same_elements; [|exact H].
  apply fmap_same_elements, H.
Qed.

Lemma matches_existing_content_same_elements_witness :
  matches_existing_content "A" "192.0.2.1" ["192.0.2.2"; "192.0.2.1"; "192.0.2.2"]
  = matches_existing_content "A" "192.0.2.1" ["192.0.2.1"; "192.0.2.2"].
Proof.
  apply matches_existing_content_same_elements. intros x.
  rewrite !list_elem_of_In. simpl. tauto.
Defined.

(** X7: nothing matches an empty existing content, and a content that
    matches keeps matching when entries are added to the existing
    content. *)
Theorem matches_existing_content_monotone rtype content existing1 existing2 :
  matches_existing_content rtype content [] ≠ Some true
  ∧ ((∀ x, x ∈ existing1 → x ∈ existing2) →
     matches_existing_content rtype content existing1 = Some true →
     matches_existing_content rtype content existing2 = Some true).
Proof.
  unfold matches_existing_content. split.
  - destruct (String.eqb rtype "SOA"); [|discriminate].
    destruct (serial content) as [s|]; simpl; [|discriminate].
    destruct (String.eqb s "0"); discriminate.
  - intros Hsub.
    assert (Hin : ∀ x, Py.in_list x existing1 = true → Py.in_list x existing2 = true).
    { intros x Hx. apply in_list_true, Hsub, in_list_spec, Hx. }
    destruct (String.eqb rtype "SOA"); [|intros [= Hm]; f_equal; apply Hin, Hm].
    destruct (serial content) as [s|]; simpl; [|discriminate].
    destruct (String.eqb s "0"); intros [= Hm]; f_equal; [|apply Hin, Hm].
    apply in_list_true. apply in_list_spec in Hm.
    apply list_elem_of_fmap in Hm as (y & -> & Hy).
    apply list_elem_of_fmap_2, Hsub, Hy.
Qed.

Lemma matches_existing_content_monotone_witness :
  matches_existing_content "SOA" "ns1 hostmaster 0 3600"
    ["ns1 hostmaster 5 3600"; "ns2 hostmaster 1 3600"] = Some true.
Proof.
  refine (proj2 (matches_existing_content_monotone "SOA" "ns1 hostmaster 0 3600"
                   ["ns1 hostmaster 5 3600"]
                   ["ns1 hostmaster 5 3600"; "ns2 hostmaster 1 3600"]) _ eq_refl).
  intros x Hx. apply list_elem_of_singleton in Hx. subst x. left.
Defined.

End Existing.

(* ===================================================================== *)
(** ** Sanitizing the content; the names [ensure] works with *)
(* ===================================================================== *)

Section Sanitize.

Context {text : Py.Lower}.

Lemma lower_char_twice c : Py.lower_char (Py.lower_char c) = Py.lower_char c.
Proof. destruct c as [[] [] [] [] [] [] [] []]; reflexivity. Qed.

Lemma lower_char_ascii c :
  (nat_of_ascii c <? 128)%nat = true → (nat_of_ascii (Py.lower_char c) <? 128)%nat = true.
Proof. destruct c as [[] [] [] [] [] [] [] []]; cbv; intros H; exact H. Qed.

Lemma lower_ascii_twice s : Py.lower_ascii (Py.lower_ascii s) = Py.lower_ascii s.
Proof.
  induction s as [|a s IH]; simpl; [reflexivity|]. rewrite lower_char_twice, IH. reflexivity.
Qed.

Lemma lower_ascii_is_ascii s :
  Py.is_ascii s = true → Py.is_ascii (Py.lower_ascii s) = true.
Proof.
  induction s as [|a s IH]; [reflexivity|].
  cbn [Py.is_ascii Py.lower_ascii]. intros [Ha Hs]%andb_true_iff.
  rewrite (lower_char_ascii a Ha), (IH Hs). reflexivity.
Qed.

(** Lowering a text of ASCII characters a second time changes nothing. *)
Lemma lower_twice s : Py.is_ascii s = true → Py.lower (Py.lower s) = Py.lower s.
Proof.
  intros Hs. rewrite (Py.lower_of_ascii s Hs).
  rewrite Py.lower_of_ascii by (apply lower_ascii_is_ascii, Hs).
  apply lower_ascii_twice.
Qed.

Lemma quote_txt_twice item : quote_txt (quote_txt item) = quote_txt item.
Proof.
  unfold quote_txt.
  destruct (Py.startswith item dquote && Py.endswith item dquote) eqn:Hq; cbn [negb].
  - rewrite Hq. reflexivity.
  - set (inner := Py.strip item dquote).
    assert (Hs : Py.startswith (dquote +:+ inner +:+ dquote) dquote = true).
    { unfold Py.startswith, dquote. simpl. destruct (inner +:+ _); reflexivity. }
    assert (He : Py.endswith (dquote +:+ inner +:+ dquote) dquote = true).
    { apply endswith_cons, endswith_app. }
    rewrite Hs, He. reflexivity.
Qed.

(** What sanitizing does to one item. *)
Lemma sanitize_items rtype x l :
  sanitize rtype (Some (x :: l))
  = Some ((λ item,
             (if String.eqb rtype "TXT" then quote_txt else id)
               ((if String.eqb rtype "AAAA" then Py.lower else id) item))
          <$> x :: l).
Proof.
  unfold sanitize.
  destruct (String.eqb rtype "AAAA"), (String.eqb rtype "TXT"); cbv zeta; f_equal.
  - rewrite <- list_fmap_compose. reflexivity.
  - symmetry. apply list_fmap_id.
Qed.

(** X8: sanitizing a second time changes nothing, for the type AAAA when
    the items are texts of ASCII characters and for every other type
    always; sanitizing keeps the number of items, leaves the content of the
    types other than AAAA and TXT as it is, and leaves a missing and an
    empty content as they are for every type. *)
Theorem sanitize_idempotent rtype content :
  ((rtype = "AAAA" →
    ∀ items, content = Some items → Forall (λ item, Py.is_ascii item = true) items) →
   sanitize rtype (sanitize rtype content) = sanitize rtype content)
  ∧ length <$> sanitize rtype content = length <$> content
  ∧ (rtype ≠ "AAAA" → rtype ≠ "TXT" → sanitize rtype content = content)
  ∧ sanitize rtype None = None
  ∧ sanitize rtype (Some []) = Some [].
Proof.
  destruct content as [[|x l]|]; try (repeat split; reflexivity).
  rewrite sanitize_items.
  set (h := λ item : string,
              (if String.eqb rtype "TXT" then quote_txt else id)
                ((if String.eqb rtype "AAAA" then Py.lower else id) item)).
  split; [|split; [|split; [|split]]]; try reflexivity.
  - intros Hascii.
    assert (Hh : ∀ item, item ∈ x :: l → h (h item) = h item).
    { intros item Hin. unfold h.
      destruct (String.eqb rtype "AAAA") eqn:Ha.
      - apply String.eqb_eq in Ha. subst rtype. simpl. apply lower_twice.
        specialize (Hascii eq_refl (x :: l) eq_refl).
        rewrite Forall_forall in Hascii. apply Hascii, Hin.
      - destruct (String.eqb rtype "TXT"); simpl; [apply quote_txt_twice|reflexivity]. }
    rewrite (fmap_cons h x l), sanitize_items. fold h.
    rewrite <- (fmap_cons h x l). f_equal.
    rewrite <- list_fmap_compose. apply list_fmap_ext. intros i item Hi.
    apply Hh, (list_elem_of_lookup_2 _ i), Hi.
  - simpl. rewrite length_fmap. reflexivity.
  - intros Ha Ht. apply String.eqb_neq in Ha, Ht. unfold h. rewrite Ha, Ht.
    f_equal. apply list_fmap_id.
Qed.

(** A name without its trailing separators does not end with one. *)
Lemma stripped_no_dot s :
  Py.endswith (if Py.endswith s "." then Py.rstrip s "." else s) "." = false.
Proof.
  destruct (Py.endswith s ".") eqn:Hs; [apply rstrip_not_endswith|exact Hs].
Qed.

Lemma contains_empty s : Py.contains s "" = true.
Proof. destruct s; reflexivity. Qed.

Lemma prefix_refl s : String.prefix s s = true.
Proof.
  induction s as [|a s IH]; simpl; [reflexivity|].
  destruct (ascii_dec a a); [exact IH|congruence].
Qed.

Lemma contains_unfold s sub :
  Py.contains s sub =
  String.prefix sub s
  || match s with EmptyString => false | String _ s' => Py.contains s' sub end.
Proof. destruct s; reflexivity. Qed.

Lemma contains_app_r a z : Py.contains (a +:+ z) z = true.
Proof.
  induction a as [|x a IH].
  - change ("" +:+ z) with z. rewrite contains_unfold, prefix_refl. reflexivity.
  - change (String x a +:+ z) with (String x (a +:+ z)).
    rewrite contains_unfold, IH. apply orb_true_r.
Qed.

(** Whether a string ends with a character is decided by a non-empty
    string appended to it. *)
Lemma endswith_app_nonempty a z c :
  z ≠ "" → Py.endswith (a +:+ z) (String c "") = Py.endswith z (String c "").
Proof.
  intros Hz. induction a as [|x a IH]; [reflexivity|].
  simpl. fold (a +:+ z). rewrite IH.
  destruct (a +:+ z) eqn:Happ.
  - destruct a; [change ("" +:+ z) with z in Happ; congruence|discriminate].
  - destruct (Ascii.eqb x c); reflexivity.
Qed.

Lemma contains_app_app_r a b z : Py.contains (a +:+ b +:+ z) z = true.
Proof.
  induction a as [|x a IH].
  - change ("" +:+ b +:+ z) with (b +:+ z). apply contains_app_r.
  - change (String x a +:+ b +:+ z) with (String x (a +:+ b +:+ z)).
    rewrite contains_unfold, IH. apply orb_true_r.
Qed.

Lemma zone_of_no_dot module : Py.endswith (zone_of module) "." = false.
Proof. apply stripped_no_dot. Qed.

Lemma name_of_contains_zone module :
  Py.contains (name_of module) (zone_of module) = true.
Proof.
  unfold name_of. cbv zeta.
  destruct (Py.contains (if Py.endswith (p_name _) "." then _ else _)
                        (zone_of module)) eqn:Hc; cbn [negb]; [exact Hc|].
  apply contains_app_app_r.
Qed.

Lemma name_of_no_dot module : Py.endswith (name_of module) "." = false.
Proof.
  pose proof (zone_of_no_dot module) as Hz.
  unfold name_of. cbv zeta.
  destruct (Py.contains _ (zone_of module)) eqn:Hc; cbn [negb];
    [apply stripped_no_dot|].
  destruct (zone_of module) as [|b z] eqn:Hzone;
    [rewrite contains_empty in Hc; discriminate|].
  rewrite endswith_app_nonempty by discriminate.
  change ("." +:+ String b z) with (String "." (String b z)).
  rewrite endswith_unfold, Hz. reflexivity.
Qed.

(** X9: the record name [ensure] works with does not end with the
    separator and holds the zone name, which does not end with it either;
    the canonical name sent to the API is that name with one separator
    appended, so it ends with exactly one. *)
Theorem name_of_canonical module :
  Py.endswith (name_of module) "." = false
  ∧ Py.endswith (zone_of module) "." = false
  ∧ Py.contains (name_of module) (zone_of module) = true
  ∧ _make_canonical (name_of module) = name_of module +:+ "."
  ∧ one_trailing_dot (_make_canonical (name_of module)).
Proof.
  pose proof (name_of_no_dot module) as Hn.
  split; [exact Hn|]. split; [apply zone_of_no_dot|].
  split; [apply name_of_contains_zone|]. split.
  - unfold _make_canonical. rewrite Hn. reflexivity.
  - unfold _make_canonical. rewrite Hn. cbn [negb]. split.
    + apply endswith_app.
    + apply endswith_snoc_once, Hn.
Qed.

Lemma name_of_normalized module : name_of (normalized module) = name_of module.
Proof.
  unfold name_of at 1. cbv zeta.
  change (p_name (params (normalized module))) with (name_of module).
  assert (Hz : zone_of (normalized module) = zone_of module).
  { unfold zone_of at 1. cbv zeta.
    change (p_zone (params (normalized module))) with (zone_of module).
    rewrite zone_of_no_dot. reflexivity. }
  rewrite Hz, name_of_no_dot, name_of_contains_zone. reflexivity.
Qed.

Lemma zone_of_normalized module : zone_of (normalized module) = zone_of module.
Proof.
  unfold zone_of at 1. cbv zeta.
  change (p_zone (params (normalized module))) with (zone_of module).
  rewrite zone_of_no_dot. reflexivity.
Qed.

End Sanitize.

Lemma sanitize_idempotent_witness :
  @sanitize ascii_lower "AAAA" (Some ["2001:DB8::1"; "2001:db8::2"])
  = Some ["2001:db8::1"; "2001:db8::2"]
  ∧ @sanitize ascii_lower "AAAA" (@sanitize ascii_lower "AAAA" (Some ["2001:DB8::1"]))
    = @sanitize ascii_lower "AAAA" (Some ["2001:DB8::1"])
  ∧ @sanitize ascii_lower "TXT" (@sanitize ascii_lower "TXT" (Some ["hello"]))
    = @sanitize ascii_lower "TXT" (Some ["hello"]).
Proof.
  split; [reflexivity|split].
  - refine (proj1 (@sanitize_idempotent ascii_lower "AAAA" (Some ["2001:DB8::1"])) _).
    intros _ items [= <-]. repeat constructor.
  - refine (proj1 (@sanitize_idempotent ascii_lower "TXT" (Some ["hello"])) _).
    discriminate.
Defined.

(* ===================================================================== *)
(** ** The requests and the results of an invocation *)
(* ===================================================================== *)

Section Discipline.

Context {text : Py.Lower} {order : Py.SetOrder}.
Variables (module : AnsibleModule) (pdns_client : PowerDNSClient).
Let u := zone_url module pdns_client.

(** X10: an invocation with the fully qualified record name and the zone
    name without trailing separators, as [ensure] derives them, has these
    names as its own and behaves as the original invocation. *)
Theorem ensure_normalized w :
  name_of (normalized module) = name_of module
  ∧ zone_of (normalized module) = zone_of module
  ∧ ensure (normalized module) pdns_client w = ensure module pdns_client w.
Proof.
  split; [apply name_of_normalized|]. split; [apply zone_of_normalized|].
  assert (Hu : zone_url (normalized module) pdns_client = u).
  { unfold u, zone_url. rewrite zone_of_normalized. reflexivity. }
  assert (Hcur : ∀ rs, current (normalized module) rs = current module rs).
  { intros rs. unfold current. rewrite name_of_normalized. reflexivity. }
  rewrite !ensure_run, Hu, Hcur. fold u.
  destruct (next_fault (get_faults w)); [reflexivity|].
  change (plan (normalized module) ?r) with (plan module r).
  unfold carry_out. rewrite name_of_normalized, zone_of_normalized. reflexivity.
Qed.

Lemma filter_filter_same {A} (f : A → bool) (l : list A) :
  List.filter f (List.filter f l) = List.filter f l.
Proof.
  induction l as [|x l IH]; simpl; [reflexivity|].
  destruct (f x) eqn:Hx; simpl; rewrite ?Hx, IH; reflexivity.
Qed.

Lemma others_after_patch data w :
  data = deletion module ∨ (∃ payload, data = replacement module payload) →
  others module (rrsets (after_patch u data w)) = others module (rrsets w).
Proof.
  intros [->|[payload ->]].
  - change (rrsets (after_patch u (deletion module) w)) with (others module (rrsets w)).
    apply filter_filter_same.
  - rewrite rrsets_after_replacement. cbv zeta. fold (others module (rrsets w)).
    destruct payload as [|x payload]; [apply filter_filter_same|].
    unfold others at 1. cbn [List.filter]. rewrite same_key_written. cbn [negb].
    apply filter_filter_same.
Qed.

Lemma log_after_get a w : log (after_get a w) = log w ++ [GET a].
Proof. reflexivity. Qed.

Lemma rrsets_after_get a w : rrsets (after_get a w) = rrsets w.
Proof. reflexivity. Qed.

Lemma log_after_patch a data w : log (after_patch a data w) = log w ++ [PATCH a data].
Proof. reflexivity. Qed.

Lemma log_after_failed_patch a data w :
  log (after_failed_patch a data w) = log w ++ [PATCH a data].
Proof. reflexivity. Qed.

Lemma rrsets_after_failed_patch a data w : rrsets (after_failed_patch a data w) = rrsets w.
Proof. reflexivity. Qed.

(** The requests after the initial read: none, a re-read, a write, or a
    write and a re-read, the write being the deletion or a replacement of
    the one recordset. *)
Lemma carry_out_requests record p w :
  ∃ rest,
    log (carry_out module pdns_client record p w).2 = log w ++ rest
    ∧ others module (rrsets (carry_out module pdns_client record p w).2)
      = others module (rrsets w)
    ∧ (rest = [] ∨ rest = [GET u]
       ∨ ∃ data, (rest = [PATCH u data] ∨ rest = [PATCH u data; GET u])
                 ∧ (data = deletion module ∨ ∃ payload, data = replacement module payload)).
Proof.
  destruct (check_mode module) eqn:Hc.
  - rewrite carry_out_check by exact Hc. fold u.
    destruct p; cbn [snd].
    1,3,4: exists []; rewrite app_nil_r; auto.
    exists [GET u]. auto.
  - rewrite carry_out_run by exact Hc. fold u. cbv zeta.
    destruct p as [|action content| |e]; cbn [snd].
    1,4: exists []; rewrite app_nil_r; auto.
    + destruct (next_fault (patch_faults w)); cbn [snd].
      * exists [PATCH u (replacement module (default [] content))].
        split; [reflexivity|]. split; [reflexivity|]. right. right. eauto 10.
      * exists [PATCH u (replacement module (default [] content)); GET u].
        rewrite log_after_get, log_after_patch, rrsets_after_get, <- app_assoc.
        split; [reflexivity|].
        split; [apply others_after_patch; eauto|]. right. right. eauto 10.
    + destruct (next_fault (patch_faults w)); cbn [snd].
      * exists [PATCH u (deletion module)]. split; [reflexivity|].
        split; [reflexivity|]. right. right. eauto 10.
      * exists [PATCH u (deletion module)]. split; [reflexivity|].
        split; [apply others_after_patch; eauto|]. right. right. eauto 10.
Qed.

(** X11: an invocation sends the read of the zone first and then at most
    one write and at most one further read, all to the URL of the zone;
    the write is the deletion or a replacement of the one recordset of the
    canonical record name and the type; and the other rrsets of the zone
    are left as they are, in their order. *)
Theorem ensure_requests w :
  ∃ rest,
    log (ensure module pdns_client w).2 = log w ++ GET u :: rest
    ∧ others module (rrsets (ensure module pdns_client w).2) = others module (rrsets w)
    ∧ (rest = [] ∨ rest = [GET u]
       ∨ ∃ data, (rest = [PATCH u data] ∨ rest = [PATCH u data; GET u])
                 ∧ (data = deletion module ∨ ∃ payload, data = replacement module payload)).
Proof.
  rewrite ensure_run. fold u. destruct (next_fault (get_faults w)).
  - exists []. auto.
  - destruct (carry_out_requests (current module (rrsets w))
                (plan module (current module (rrsets w))) (after_get u w))
      as (rest & Hlog & Hothers & Hrest).
    exists rest. rewrite Hlog, Hothers, log_after_get, rrsets_after_get, <- app_assoc.
    auto.
Qed.


(** X13: outside check mode the changed flag tells whether a write was
    sent: an unchanged result comes with the record that was read, after
    the read alone; a changed result comes after a write was sent right
    after the read. *)
Theorem ensure_changed_iff_written w w' changed record :
  check_mode module = false →
  ensure module pdns_client w = (Return (changed, record), w') →
  if changed
  then ∃ data rest, log w' = log w ++ GET u :: PATCH u data :: rest
  else w' = after_get u w ∧ record = Some (current module (rrsets w)).
Proof.
  intros Hc. rewrite ensure_run, carry_out_run by exact Hc. fold u. cbv zeta.
  destruct (next_fault (get_faults w)); [discriminate|].
  destruct (plan module _) as [|action content| |e].
  - intros [= <- <- <-]. auto.
  - destruct (next_fault (patch_faults _)); [discriminate|].
    destruct (next_fault (get_faults (after_patch _ _ _))) as [[]|]; try discriminate.
    intros [= <- _ <-]. simpl. rewrite <- !app_assoc. eauto.
  - destruct (next_fault (patch_faults _)); [discriminate|].
    intros [= <- _ <-]. simpl. rewrite <- !app_assoc. eauto.
  - discriminate.
Qed.

End Discipline.


Lemma ensure_changed_iff_written_witness :
  let module := Sample.invocation "present" "A" true (Some ["192.0.2.1"]) 60 false in
  let w' := (@ensure ascii_lower last_seen_order module Sample.client (Sample.remote [])).2 in
  ∃ data rest, log w' = [] ++ GET Sample.zone :: PATCH Sample.zone data :: rest.
Proof.
  exact (@ensure_changed_iff_written ascii_lower last_seen_order
           (Sample.invocation "present" "A" true (Some ["192.0.2.1"]) 60 false)
           Sample.client (Sample.remote [])
           (@ensure ascii_lower last_seen_order
              (Sample.invocation "present" "A" true (Some ["192.0.2.1"]) 60 false)
              Sample.client (Sample.remote [])).2
           true _ eq_refl eq_refl).
Defined.

(* ===================================================================== *)
(** ** Creation, removal and failures *)
(* ===================================================================== *)

Section Branches.

Context {text : Py.Lower} {order : Py.SetOrder}.
Variables (module : AnsibleModule) (pdns_client : PowerDNSClient).
Let u := zone_url module pdns_client.

(** X14: outside check mode, when the write of an invocation fails, the
    rrsets of the remote stay as they are, the result is never changed,
    and a failure is reported for the record name with the status code and
    the message of the error. *)
Theorem ensure_write_fails w e :
  check_mode module = false →
  next_fault (get_faults w) = None →
  next_fault (patch_faults w) = Some e →
  rrsets (ensure module pdns_client w).2 = rrsets w
  ∧ (∀ record, (ensure module pdns_client w).1 ≠ Return (true, record))
  ∧ (∀ msg, (ensure module pdns_client w).1 = Failed msg →
            fm_name msg = name_of module
            ∧ fm_code msg = status_code e ∧ fm_err msg = message e).
Proof.
  intros Hc Hr Hp. rewrite ensure_run, Hr, carry_out_run by exact Hc. cbv zeta.
  change (patch_faults (after_get ?a w)) with (patch_faults w). rewrite Hp.
  destruct (plan module _); cbn [fst snd].
  - split; [reflexivity|]. split; [discriminate|discriminate].
  - split; [reflexivity|]. split; [discriminate|].
    intros msg [= <-]. repeat split.
  - split; [reflexivity|]. split; [discriminate|].
    intros msg [= <-]. repeat split.
  - split; [reflexivity|]. split; [discriminate|discriminate].
Qed.

(** X15: when the record is created and the read that follows fails, a
    failure to create is reported although the remote now holds the
    record with the desired content. *)
Theorem ensure_created_reread_fails w e content :
  p_state (params module) = "present" →
  check_mode module = false →
  existing_of (current module (rrsets w)) = [] →
  desired module = Some content →
  content ≠ [] →
  next_fault (get_faults w) = None →
  next_fault (patch_faults w) = None →
  next_fault (tail (get_faults w)) = Some (ReadError e) →
  (ensure module pdns_client w).1 = Failed (fail_msg "create" (name_of module) e)
  ∧ current module (rrsets (ensure module pdns_client w).2)
    = Found (written module content).
Proof.
  intros Hst Hc Hex Hd Hne Hr Hp Hr2.
  assert (Hplan : plan module (current module (rrsets w)) = Write "create" (Some content)).
  { unfold plan. rewrite Hst, Hex, Hd. reflexivity. }
  rewrite ensure_run, Hr, Hplan, carry_out_run by exact Hc. cbv zeta.
  change (patch_faults (after_get ?a w)) with (patch_faults w). rewrite Hp.
  change (get_faults (after_patch ?a ?d (after_get ?b w))) with (tail (get_faults w)).
  rewrite Hr2. cbn [fst snd default from_option id].
  split; [reflexivity|].
  rewrite rrsets_after_get, current_after_replacement.
  destruct content; [done|reflexivity].
Qed.

(** X25: when the record is created and the read that follows is answered
    with a success that carries no rrsets (a dict without ['rrsets'], or a
    document that is no dict), the [KeyError] or [TypeError] of
    [resp['rrsets']] escapes from [ensure], which reports nothing, although
    the remote now holds the record with the desired content. *)
Theorem ensure_created_reread_malformed w f content :
  p_state (params module) = "present" →
  check_mode module = false →
  existing_of (current module (rrsets w)) = [] →
  desired module = Some content →
  content ≠ [] →
  next_fault (get_faults w) = None →
  next_fault (patch_faults w) = None →
  next_fault (tail (get_faults w)) = Some f →
  f = NoRrsets ∨ f = NoDict →
  (ensure module pdns_client w).1 = Raised (read_exception f)
  ∧ (read_exception f = KeyError ∨ read_exception f = TypeError)
  ∧ current module (rrsets (ensure module pdns_client w).2)
    = Found (written module content).
Proof.
  intros Hst Hc Hex Hd Hne Hr Hp Hr2 Hf.
  assert (Hplan : plan module (current module (rrsets w)) = Write "create" (Some content)).
  { unfold plan. rewrite Hst, Hex, Hd. reflexivity. }
  rewrite ensure_run, Hr, Hplan, carry_out_run by exact Hc. cbv zeta.
  change (patch_faults (after_get ?a w)) with (patch_faults w). rewrite Hp.
  change (get_faults (after_patch ?a ?d (after_get ?b w))) with (tail (get_faults w)).
  rewrite Hr2. cbn [fst snd default from_option id].
  split; [destruct Hf as [->| ->]; reflexivity|].
  split; [destruct Hf as [->| ->]; auto|].
  rewrite rrsets_after_get, current_after_replacement.
  destruct content; [done|reflexivity].
Qed.

(** X16: with [state=absent] outside check mode, against a remote that
    answers: an existing recordset is deleted as a whole when
    [exclusive=true], whatever the content given, the result is changed
    without a record and the recordset is gone; and when there is no
    recordset the read is the only request and the result is unchanged,
    whatever [exclusive] and the content are. *)
Theorem ensure_absent w :
  p_state (params module) = "absent" →
  check_mode module = false →
  faultless w →
  (existing_of (current module (rrsets w)) ≠ [] →
   p_exclusive (params module) = true →
   ensure module pdns_client w
   = (Return (true, None), after_patch u (deletion module) (after_get u w))
   ∧ current module (rrsets (after_patch u (deletion module) (after_get u w))) = Default)
  ∧ (existing_of (current module (rrsets w)) = [] →
     ensure module pdns_client w
     = (Return (false, Some (current module (rrsets w))), after_get u w)).
Proof.
  intros Hst Hc Hf. split.
  - intros Hex Hexcl. split; [|apply current_after_deletion].
    apply ensure_remove; [exact Hc|exact Hf|].
    rewrite (plan_absent module _ Hst). cbv zeta.
    rewrite (nonempty_true _ Hex), Hexcl. reflexivity.
  - intros Hex. apply ensure_keep; [apply faultless_next_get, Hf|].
    rewrite (plan_absent module _ Hst). cbv zeta. rewrite Hex. reflexivity.
Qed.

(** X17: with [state=present] outside check mode, when the remote holds no
    record of the name and type, the sanitized content is submitted as it
    is, repetitions included and in its order, with the TTL given; the
    result is changed, with the record as the remote then returns it. *)
Theorem ensure_present_creates w :
  p_state (params module) = "present" →
  check_mode module = false →
  faultless w →
  existing_of (current module (rrsets w)) = [] →
  ensure module pdns_client w
  = (Return (true, Some (reread module (default [] (desired module)))),
     after_get u
       (after_patch u (replacement module (default [] (desired module)))
          (after_get u w))).
Proof.
  intros Hst Hc Hf Hex.
  assert (Hplan : plan module (current module (rrsets w))
                  = Write "create" (desired module)).
  { unfold plan. rewrite Hst, Hex. reflexivity. }
  apply (ensure_write module pdns_client w _ _ Hc Hf Hplan).
Qed.

Lemma filter_bool_length (f : string → bool) (l : list string) :
  length (List.filter f l) = length l ↔ ∀ x, x ∈ l → f x = true.
Proof.
  induction l as [|y l IH]; simpl.
  - split; [intros _ x Hx; inversion Hx|reflexivity].
  - pose proof (List.filter_length_le f l) as Hle.
    destruct (f y) eqn:Hy; simpl.
    + split.
      * intros Hlen x Hx. apply elem_of_cons in Hx as [->|Hx]; [exact Hy|].
        apply IH; [lia|exact Hx].
      * intros H. f_equal. apply IH. intros x Hx. apply H. right. exact Hx.
    + split; [lia|]. intros H. rewrite (H y) in Hy by left. discriminate.
Qed.

(** X18: with [state=absent] and [exclusive=false] outside check mode,
    against an existing recordset: entries are removed by comparing
    strings; when no existing entry is among the desired ones the read is
    the only request and the result is unchanged; otherwise the recordset
    is rewritten with the existing entries that are not desired, in their
    order, and the result is changed. *)
Theorem ensure_absent_partial content w :
  p_state (params module) = "absent" →
  p_exclusive (params module) = false →
  check_mode module = false →
  faultless w →
  existing_of (current module (rrsets w)) ≠ [] →
  desired module = Some content →
  ((∀ x, x ∈ existing_of (current module (rrsets w)) → x ∉ content) →
   ensure module pdns_client w
   = (Return (false, Some (current module (rrsets w))), after_get u w))
  ∧ ((∃ x, x ∈ existing_of (current module (rrsets w)) ∧ x ∈ content) →
     ∃ remainder,
       (∀ x, x ∈ remainder ↔ x ∈ existing_of (current module (rrsets w)) ∧ x ∉ content)
       ∧ remainder `sublist_of` existing_of (current module (rrsets w))
       ∧ ensure module pdns_client w
         = (Return (true, Some (reread module remainder)),
            after_get u (after_patch u (replacement module remainder) (after_get u w)))).
Proof.
  intros Hst Hexcl Hc Hf Hex Hd.
  pose proof (ensure_absent_remainder module pdns_client content w
                Hst Hexcl Hc Hf Hex Hd) as Hrun.
  cbv zeta in Hrun. fold u in Hrun.
  set (existing := existing_of (current module (rrsets w))) in *.
  set (remainder := List.filter _ existing) in Hrun.
  assert (Hrem : ∀ x, x ∈ remainder ↔ x ∈ existing ∧ x ∉ content).
  { intros x. unfold remainder. rewrite elem_of_filter_bool, negb_true_iff.
    unfold Py.in_list. rewrite bool_decide_eq_false. tauto. }
  split.
  - intros Hnone.
    assert (Hlen : length remainder = length existing).
    { apply filter_bool_length. intros x Hx.
      apply negb_true_iff, in_list_false, Hnone, Hx. }
    rewrite Hlen, Nat.eqb_refl in Hrun. exact Hrun.
  - intros (x & Hx & Hxc). exists remainder. split; [exact Hrem|]. split.
    + unfold remainder. clear. induction existing as [|y l IH]; simpl; [constructor|].
      destruct (negb _); [apply sublist_skip|apply sublist_cons]; exact IH.
    + destruct (length remainder =? length existing)%nat eqn:Hlen; [|exact Hrun].
      apply Nat.eqb_eq in Hlen. unfold remainder in Hlen.
      rewrite filter_bool_length in Hlen.
      specialize (Hlen x Hx). apply negb_true_iff in Hlen.
      apply in_list_true in Hxc. congruence.
Qed.

End Branches.

Lemma ensure_write_fails_witness :
  let module := Sample.invocation "present" "A" true (Some ["192.0.2.1"]) 60 false in
  let e := {| err_url := Sample.zone; status_code := 422; message := "Unprocessable" |} in
  let w := {| rrsets := []; get_faults := []; patch_faults := [Some e]; log := [] |} in
  rrsets (@ensure ascii_lower last_seen_order module Sample.client w).2 = [].
Proof.
  exact (proj1 (@ensure_write_fails ascii_lower last_seen_order
                  (Sample.invocation "present" "A" true (Some ["192.0.2.1"]) 60 false)
                  Sample.client
                  {| rrsets := []; get_faults := [];
                     patch_faults :=
                       [Some {| err_url := Sample.zone; status_code := 422;
                                message := "Unprocessable" |}];
                     log := [] |}
                  {| err_url := Sample.zone; status_code := 422;
                     message := "Unprocessable" |}
                  eq_refl eq_refl eq_refl)).
Defined.

Lemma ensure_created_reread_fails_witness :
  let module := Sample.invocation "present" "A" true (Some ["192.0.2.1"]) 60 false in
  let e := {| err_url := Sample.zone; status_code := 500; message := "Internal" |} in
  let w := {| rrsets := []; get_faults := [None; Some (ReadError e)];
              patch_faults := []; log := [] |} in
  (@ensure ascii_lower last_seen_order module Sample.client w).1
  = Failed (fail_msg "create" "www.example.com" e).
Proof.
  refine (proj1 (@ensure_created_reread_fails ascii_lower last_seen_order
                   (Sample.invocation "present" "A" true (Some ["192.0.2.1"]) 60 false)
                   Sample.client
                   {| rrsets := [];
                      get_faults :=
                        [None; Some (ReadError {| err_url := Sample.zone;
                                                  status_code := 500;
                                                  message := "Internal" |})];
                      patch_faults := []; log := [] |}
                   {| err_url := Sample.zone; status_code := 500; message := "Internal" |}
                   ["192.0.2.1"] eq_refl eq_refl eq_refl eq_refl _ eq_refl eq_refl eq_refl)).
  discriminate.
Defined.

Lemma ensure_created_reread_malformed_witness :
  let module := Sample.invocation "present" "A" true (Some ["192.0.2.1"]) 60 false in
  let w := {| rrsets := []; get_faults := [None; Some NoRrsets];
              patch_faults := []; log := [] |} in
  (@ensure ascii_lower last_seen_order module Sample.client w).1 = Raised KeyError
  ∧ current module (rrsets (@ensure ascii_lower last_seen_order module Sample.client w).2)
    = Found (written module ["192.0.2.1"]).
Proof.
  pose proof (@ensure_created_reread_malformed ascii_lower last_seen_order
                (Sample.invocation "present" "A" true (Some ["192.0.2.1"]) 60 false)
                Sample.client
                {| rrsets := []; get_faults := [None; Some NoRrsets];
                   patch_faults := []; log := [] |}
                NoRrsets ["192.0.2.1"] eq_refl eq_refl eq_refl eq_refl
                ltac:(discriminate) eq_refl eq_refl eq_refl (or_introl eq_refl))
    as (Hout & _ & Hcur).
  split; [exact Hout|exact Hcur].
Defined.

Lemma ensure_absent_witness :
  let module := Sample.invocation "absent" "A" true None 60 false in
  let w := Sample.remote [Sample.stored "A" ["192.0.2.1"; "192.0.2.2"] 60] in
  @ensure ascii_lower last_seen_order module Sample.client w
  = (Return (true, None),
     after_patch Sample.zone (deletion module) (after_get Sample.zone w)).
Proof.
  refine (proj1 (proj1 (@ensure_absent ascii_lower last_seen_order
                          (Sample.invocation "absent" "A" true None 60 false)
                          Sample.client
                          (Sample.remote [Sample.stored "A" ["192.0.2.1"; "192.0.2.2"] 60])
                          eq_refl eq_refl (conj eq_refl eq_refl)) _ eq_refl)).
  discriminate.
Defined.

Lemma ensure_present_creates_witness :
  let module :=
    Sample.invocation "present" "A" false (Some ["192.0.2.1"; "192.0.2.1"]) 60 false in
  @ensure ascii_lower last_seen_order module Sample.client (Sample.remote [])
  = (Return (true, Some (Found (written module ["192.0.2.1"; "192.0.2.1"]))),
     after_get Sample.zone
       (after_patch Sample.zone (replacement module ["192.0.2.1"; "192.0.2.1"])
          (after_get Sample.zone (Sample.remote [])))).
Proof.
  exact (@ensure_present_creates ascii_lower last_seen_order
           (Sample.invocation "present" "A" false (Some ["192.0.2.1"; "192.0.2.1"]) 60 false)
           Sample.client (Sample.remote []) eq_refl eq_refl (conj eq_refl eq_refl) eq_refl).
Defined.

Lemma ensure_absent_partial_witness :
  let module := Sample.invocation "absent" "A" false (Some ["192.0.2.1"]) 60 false in
  let w := Sample.remote [Sample.stored "A" ["192.0.2.1"; "192.0.2.2"] 60] in
  ∃ remainder,
    (∀ x, x ∈ remainder ↔ x ∈ existing_of (current module (rrsets w)) ∧ x ∉ ["192.0.2.1"])
    ∧ remainder `sublist_of` existing_of (current module (rrsets w))
    ∧ @ensure ascii_lower last_seen_order module Sample.client w
      = (Return (true, Some (reread module remainder)),
         after_get Sample.zone
           (after_patch Sample.zone (replacement module remainder)
              (after_get Sample.zone w))).
Proof.
  refine (proj2 (@ensure_absent_partial ascii_lower last_seen_order
                   (Sample.invocation "absent" "A" false (Some ["192.0.2.1"]) 60 false)
                   Sample.client ["192.0.2.1"]
                   (Sample.remote [Sample.stored "A" ["192.0.2.1"; "192.0.2.2"] 60])
                   eq_refl eq_refl eq_refl (conj eq_refl eq_refl) _ eq_refl) _).
  - discriminate.
  - exists "192.0.2.1". split; [left|left].
Defined.

(* ===================================================================== *)
(** ** Request bodies and responses *)
(* ===================================================================== *)

Section Wire.

(** X19: a request body names exactly one rrset, with the name, type,
    change type and TTL given; its records are the contents given, in
    their order, each with the disabled flag given; a missing content
    gives the same body as an empty one; and ['set-ptr'] is set on the
    records only for the types A and AAAA with [set_ptr] requested. *)
Theorem request_data_shape changetype name rtype set_ptr content disabled ttl :
  ∃ records,
    _get_request_data changetype name rtype set_ptr content disabled ttl
    = [ {| ch_name := name; ch_type := rtype; changetype := changetype;
           ch_records := records; ch_ttl := ttl |} ]
    ∧ rq_content <$> records = default [] content
    ∧ Forall (λ r, rq_disabled r = disabled
                   ∧ (rq_set_ptr r = true
                      ↔ (rtype = "A" ∨ rtype = "AAAA") ∧ set_ptr = true)) records
    ∧ _get_request_data changetype name rtype set_ptr None disabled ttl
      = _get_request_data changetype name rtype set_ptr (Some []) disabled ttl.
Proof.
  unfold _get_request_data. eexists. split; [reflexivity|]. split; [|split].
  - rewrite <- list_fmap_compose. apply list_fmap_id.
  - apply Forall_fmap, Forall_true. intros c. simpl. split; [reflexivity|].
    rewrite andb_true_iff, orb_true_iff, !String.eqb_eq. tauto.
  - reflexivity.
Qed.

(** X20: [_handle_request] raises exactly for the status codes other than
    200, 201 and 204, with the URL and the status code of the response; a
    successful response whose body is empty or is no JSON gives the empty
    dictionary, not an error; and status 404 gives the message
    ['Not found'] whatever the body says. *)
Theorem handle_request_outcome req :
  (resp_status req ∈ [200; 201; 204] ↔ ∃ document, _handle_request req = Body document)
  ∧ (resp_status req ∈ [200; 201; 204] →
     resp_text req = "" ∨ resp_json req = None →
     _handle_request req = Body (JObject []))
  ∧ (resp_status req ∉ [200; 201; 204] →
     ∃ message,
       _handle_request req = Error (resp_url req) (resp_status req) message
       ∧ (resp_status req = 404 → message = JString "Not found")).
Proof.
  unfold _handle_request.
  destruct (bool_decide (resp_status req ∈ [200; 201; 204])) eqn:Hs.
  - apply bool_decide_eq_true in Hs. split; [|split].
    + split; [|intros _; exact Hs]. intros _.
      destruct (negb _); [destruct (resp_json req)|]; eauto.
    + intros _ [Ht|Hj].
      * rewrite Ht. reflexivity.
      * rewrite Hj. destruct (negb _); reflexivity.
    + intros Hn. done.
  - apply bool_decide_eq_false in Hs. split; [|split].
    + split; [done|]. intros [document Hd].
      destruct (resp_status req =? 404); discriminate.
    + done.
    + intros _. destruct (resp_status req =? 404) eqn:H404.
      * eexists. split; [reflexivity|]. reflexivity.
      * eexists. split; [reflexivity|]. intros H. apply Z.eqb_neq in H404. done.
Qed.

Lemma existsb_find {A} (f : A → bool) (l : list A) :
  existsb f l = match List.find f l with Some _ => true | None => false end.
Proof.
  induction l as [|x l IH]; simpl; [reflexivity|]. destruct (f x); [reflexivity|exact IH].
Qed.

Lemma find_key_present (fields : list (string * JSON)) k v :
  NoDup fields.*1 → (k, v) ∈ fields →
  List.find (λ kv, String.eqb kv.1 k) fields = Some (k, v).
Proof.
  induction fields as [|[k' v'] fields IH]; intros Hnd Hin; [inversion Hin|].
  apply NoDup_cons in Hnd as [Hk' Hnd]. simpl.
  apply elem_of_cons in Hin as [[= <- <-]|Hin].
  - rewrite String.eqb_refl. reflexivity.
  - destruct (String.eqb k' k) eqn:Hk; [|apply IH; assumption].
    apply String.eqb_eq in Hk. subst k'. exfalso. apply Hk'.
    apply list_elem_of_fmap. exists (k, v). split; [reflexivity|exact Hin].
Qed.

Lemma find_key_missing (fields : list (string * JSON)) k :
  k ∉ fields.*1 → List.find (λ kv, String.eqb kv.1 k) fields = None.
Proof.
  induction fields as [|[k' v'] fields IH]; intros Hk; [reflexivity|]. simpl.
  destruct (String.eqb k' k) eqn:Hk'.
  - apply String.eqb_eq in Hk'. subst k'. exfalso. apply Hk. left.
  - apply IH. intros Hin. apply Hk. right. exact Hin.
Qed.

(** The message for a body that is a JSON object. *)
Lemma request_error_object data fields :
  resp_json data = Some (JObject fields) →
  _get_request_error_message data =
  match List.find (λ kv, String.eqb kv.1 "error") fields with
  | Some kv => kv.2
  | None =>
      match List.find (λ kv, String.eqb kv.1 "errors") fields with
      | Some kv => kv.2
      | None =>
          match List.find (λ kv, String.eqb kv.1 "msg") fields with
          | Some kv => kv.2
          | None => JNull
          end
      end
  end.
Proof.
  intros Hj. unfold _get_request_error_message, request_error. rewrite Hj. simpl.
  rewrite !existsb_find.
  destruct (List.find (λ kv, String.eqb kv.1 "error") fields); [reflexivity|].
  destruct (List.find (λ kv, String.eqb kv.1 "errors") fields); [reflexivity|].
  destruct (List.find (λ kv, String.eqb kv.1 "msg") fields); reflexivity.
Qed.

(** X21: for an error response whose body is a JSON object, the message is
    the value under ["error"]; without that key the value under
    ["errors"]; without both the value under ["msg"]; and without any of
    the three it is [None]: the text of the body is not used. *)
Theorem request_error_message_object data fields :
  resp_json data = Some (JObject fields) →
  NoDup fields.*1 →
  (∀ v, ("error", v) ∈ fields → _get_request_error_message data = v)
  ∧ (∀ v, "error" ∉ fields.*1 → ("errors", v) ∈ fields →
          _get_request_error_message data = v)
  ∧ (∀ v, "error" ∉ fields.*1 → "errors" ∉ fields.*1 → ("msg", v) ∈ fields →
          _get_request_error_message data = v)
  ∧ ("error" ∉ fields.*1 → "errors" ∉ fields.*1 → "msg" ∉ fields.*1 →
     _get_request_error_message data = JNull).
Proof.
  intros Hj Hnd. rewrite (request_error_object data fields Hj).
  split; [|split; [|split]].
  - intros v Hv. rewrite (find_key_present _ _ _ Hnd Hv). reflexivity.
  - intros v He Hv.
    rewrite (find_key_missing _ _ He), (find_key_present _ _ _ Hnd Hv). reflexivity.
  - intros v He Hes Hv.
    rewrite (find_key_missing _ _ He), (find_key_missing _ _ Hes),
      (find_key_present _ _ _ Hnd Hv). reflexivity.
  - intros He Hes Hm.
    rewrite (find_key_missing _ _ He), (find_key_missing _ _ Hes),
      (find_key_missing _ _ Hm). reflexivity.
Qed.

Lemma request_error_message_object_witness :
  _get_request_error_message
    {| resp_url := Sample.zone; resp_status := 422; resp_text := "{...}";
       resp_json := Some (JObject [("msg", JString "m"); ("errors", JString "e")]) |}
  = JString "e".
Proof.
  refine (proj1 (proj2 (request_error_message_object
            {| resp_url := Sample.zone; resp_status := 422; resp_text := "{...}";
               resp_json := Some (JObject [("msg", JString "m"); ("errors", JString "e")]) |}
            [("msg", JString "m"); ("errors", JString "e")] eq_refl _))
            (JString "e") _ _).
  - repeat constructor; rewrite ?list_elem_of_In; simpl; intuition discriminate.
  - rewrite list_elem_of_In. simpl. intuition discriminate.
  - right. left.
Defined.

(** X22: for an error response whose body is no JSON, or is a JSON value
    that is neither an object, an array nor a string, the message is the
    text of the body; for an array or a string it is the text of the body
    or [None], never a part of the document. *)
Theorem request_error_message_other data :
  (resp_json data = None → _get_request_error_message data = JString (resp_text data))
  ∧ (∀ document, resp_json data = Some document →
       (document = JNull ∨ (∃ b, document = JBool b) ∨ (∃ n, document = JNumber n)) →
       _get_request_error_message data = JString (resp_text data))
  ∧ (∀ document, resp_json data = Some document →
       (∃ items, document = JArray items) ∨ (∃ s, document = JString s) →
       _get_request_error_message data = JString (resp_text data)
       ∨ _get_request_error_message data = JNull).
Proof.
  unfold _get_request_error_message, request_error. split; [|split].
  - intros ->. reflexivity.
  - intros document -> [->|[[b ->]|[n ->]]]; reflexivity.
  - intros document -> [[items ->]|[s ->]]; simpl.
    + repeat match goal with |- context [existsb ?f ?l] => destruct (existsb f l) end;
        simpl; auto.
    + repeat match goal with |- context [Py.contains ?a ?b] =>
               destruct (Py.contains a b) end; simpl; auto.
Qed.

Lemma request_error_message_other_witness :
  _get_request_error_message
    {| resp_url := Sample.zone; resp_status := 500; resp_text := "Internal Server Error";
       resp_json := None |}
  = JString "Internal Server Error".
Proof.
  exact (proj1 (request_error_message_other
                  {| resp_url := Sample.zone; resp_status := 500;
                     resp_text := "Internal Server Error"; resp_json := None |}) eq_refl).
Defined.

End Wire.

Lemma handle_request_outcome_witness :
  _handle_request {| resp_url := Sample.zone; resp_status := 204; resp_text := "";
                     resp_json := None |}
  = Body (JObject []).
Proof.
  refine (proj1 (proj2 (handle_request_outcome
            {| resp_url := Sample.zone; resp_status := 204; resp_text := "";
               resp_json := None |})) _ (or_introl eq_refl)).
  rewrite list_elem_of_In. simpl. tauto.
Defined.

(* ===================================================================== *)
(** ** What the decision does not look at *)
(* ===================================================================== *)

Section Flags.

Context {text : Py.Lower} {order : Py.SetOrder}.
Variables (module : AnsibleModule) (pdns_client : PowerDNSClient).
Let u := zone_url module pdns_client.

(** X23: in check mode a result, changed or not, comes with the record as
    it was read before any change, or with no record for a removal; the
    rrsets of the remote are as before. *)
Theorem ensure_check_mode_record w w' changed record :
  check_mode module = true →
  ensure module pdns_client w = (Return (changed, record), w') →
  rrsets w' = rrsets w
  ∧ (record = Some (current module (rrsets w)) ∨ (changed = true ∧ record = None)).
Proof.
  intros Hc. rewrite ensure_check by exact Hc.
  destruct (next_fault (get_faults w)); [discriminate|].
  destruct (plan module _).
  - intros [= <- <- <-]. auto.
  - destruct (next_fault _) as [[]|]; try discriminate. intros [= <- <- <-]. auto.
  - intros [= <- <- <-]. auto.
  - discriminate.
Qed.

(** X24: the decision looks neither at [disabled] nor at [set_ptr]: the
    same invocation with other values of the two returns the same changed
    flag whenever it returns. *)
Theorem ensure_ignores_flags disabled set_ptr w changed record :
  (ensure module pdns_client w).1 = Return (changed, record) →
  ∃ record',
    (ensure (with_flags disabled set_ptr module) pdns_client w).1
    = Return (changed, record').
Proof.
  rewrite !ensure_run.
  change (zone_url (with_flags disabled set_ptr module) pdns_client) with u.
  change (current (with_flags disabled set_ptr module)) with (current module).
  change (plan (with_flags disabled set_ptr module) ?r) with (plan module r).
  fold u. destruct (next_fault (get_faults w)); [discriminate|].
  destruct (check_mode module) eqn:Hc.
  - rewrite !carry_out_check by exact Hc.
    change (zone_url (with_flags disabled set_ptr module) pdns_client) with u.
    destruct (plan module _); cbn [fst].
    + intros H. eexists. exact H.
    + destruct (next_fault _) as [[]|]; try discriminate.
      intros [= <- _]. eexists. reflexivity.
    + intros H. eexists. exact H.
    + discriminate.
  - rewrite !carry_out_run by exact Hc. cbv zeta.
    change (zone_url (with_flags disabled set_ptr module) pdns_client) with u.
    destruct (plan module _); cbn [fst].
    + intros H. eexists. exact H.
    + destruct (next_fault (patch_faults _)); [discriminate|]. cbn [fst].
      change (get_faults (after_patch ?a ?d ?x)) with (get_faults x).
      destruct (next_fault _) as [[]|]; try discriminate.
      intros [= <- _]. eexists. reflexivity.
    + destruct (next_fault (patch_faults _)); [discriminate|].
      intros [= <- _]. eexists. reflexivity.
    + discriminate.
Qed.

End Flags.

Lemma ensure_check_mode_record_witness :
  let module := Sample.invocation "present" "A" true (Some ["192.0.2.2"]) 60 true in
  let w := Sample.remote [Sample.stored "A" ["192.0.2.1"] 60] in
  rrsets (@ensure ascii_lower last_seen_order module Sample.client w).2 = rrsets w.
Proof.
  exact (proj1 (@ensure_check_mode_record ascii_lower last_seen_order
                  (Sample.invocation "present" "A" true (Some ["192.0.2.2"]) 60 true)
                  Sample.client (Sample.remote [Sample.stored "A" ["192.0.2.1"] 60])
                  _ true _ eq_refl eq_refl)).
Defined.

Lemma ensure_ignores_flags_witness :
  let module := Sample.invocation "present" "A" true (Some ["192.0.2.1"]) 60 false in
  let w := Sample.remote [Sample.stored "A" ["192.0.2.1"] 60] in
  ∃ record',
    (@ensure ascii_lower last_seen_order (with_flags true false module) Sample.client w).1
    = Return (false, record').
Proof.
  exact (@ensure_ignores_flags ascii_lower last_seen_order
           (Sample.invocation "present" "A" true (Some ["192.0.2.1"]) 60 false)
           Sample.client true false
           (Sample.remote [Sample.stored "A" ["192.0.2.1"] 60])
           false _ eq_refl).
Defined.
